(** * Shift Tracker: the record store and the shift entry logic

    A shallow embedding of [src/shifttracker/manager.py] (class [FileManager])
    and of the callbacks of [src/shifttracker/main.py] that reach it
    ([LoginView.create_user], [HomeView.populate_tree],
    [HomeView.delete_selected_entry], [AddWindow.add_button_action]),
    together with the parts of Python's [str], [int], [datetime] and of
    pandas' [read_csv] / [to_csv] those lines rely on.

    Conventions.
    - Text is ASCII ([string]); the entry boxes of Tk hand out [str] values.
    - A Python exception is a value of [exn]; code that may raise returns
      [result A].
    - The float produced by [round(x / 3600, 2)] is carried as an integer
      number of hundredths of an hour (8.5 hours is [850]).  Clock times
      built from an hour and a minute differ by whole minutes, for which
      the quotient is never half-way between two hundredths
      ([whole_minutes_never_tie] below), so the rounding of the binary
      float and the rounding of the exact quotient pick the same value.
    - A CSV file is the list of its lines after the header, a line being
      the words of its cells: quoting is taken to give back each word as
      it was written.  What [read_csv] makes of a word is modelled
      ([Pandas.infer_column]).  The text [to_csv] writes for a float is not
      computed: it is the parameter [float_repr] of section [Store].
    - Whether [read_csv] takes a word with the syntax of a float as one is
      computed from its digits and exponent, except where the answer hangs
      on the rounding of a product close to the largest double or on an
      overflow of a C [int]: there it is the parameter [finite_double] of
      section [Store].  Every theorem holds for every value of the two
      parameters. *)

From Stdlib Require Import ZArith List String Ascii Bool Lia DecimalString.
Import ListNotations.
Open Scope string_scope.
Open Scope Z_scope.

(** ** Exceptions *)

Inductive exn : Type :=
| ValueError
| TypeError
| IndexError
| KeyError
| OverflowError
| TclError.

Inductive result (A : Type) : Type :=
| Ok (a : A)
| Raise (e : exn).

Arguments Ok {A} a.
Arguments Raise {A} e.

Definition rbind {A B : Type} (r : result A) (k : A -> result B) : result B :=
  match r with
  | Ok a => k a
  | Raise e => Raise e
  end.

(** ** Python's [str.split] and [int] *)

Module PyStr.

Definition code (c : ascii) : Z := Z.of_N (N_of_ascii c).

Definition colon : ascii := ":"%char.

(** The whitespace [int] drops around the digits of an ASCII string: tab
    to carriage return, and the blank. *)
Definition is_space (c : ascii) : bool :=
  let n := code c in
  ((9 <=? n) && (n <=? 13)) || (n =? 32).

Definition is_digit (c : ascii) : bool :=
  let n := code c in (48 <=? n) && (n <=? 57).

Definition digit_value (c : ascii) : Z := code c - 48.

(** [s.split(sep)] for a one-character separator: never an empty list. *)
Fixpoint split (sep : ascii) (s : string) : list string :=
  match s with
  | EmptyString => [EmptyString]
  | String c s' =>
      if Ascii.eqb c sep then EmptyString :: split sep s'
      else match split sep s' with
           | h :: t => String c h :: t
           | [] => [String c EmptyString]
           end
  end.

(** [sep in s] *)
Fixpoint has_char (sep : ascii) (s : string) : bool :=
  match s with
  | EmptyString => false
  | String c s' => Ascii.eqb c sep || has_char sep s'
  end.

(** [l[i]]: an [IndexError] past the end. *)
Definition index {A : Type} (l : list A) (i : nat) : result A :=
  match nth_error l i with
  | Some a => Ok a
  | None => Raise IndexError
  end.

Fixpoint lstrip (l : list ascii) : list ascii :=
  match l with
  | c :: t => if is_space c then lstrip t else l
  | [] => []
  end.

Definition strip (l : list ascii) : list ascii :=
  rev (lstrip (rev (lstrip l))).

(** The digits of a base-10 literal, single underscores allowed between
    two digits.  [after_digit] tells whether the previous character was a
    digit. *)
Fixpoint digits (acc : Z) (after_digit : bool) (l : list ascii) : option Z :=
  match l with
  | [] => if after_digit then Some acc else None
  | c :: t =>
      if is_digit c then digits (10 * acc + digit_value c) true t
      else if Ascii.eqb c "_"%char then
             if after_digit then digits acc false t else None
           else None
  end.

(** [int] refuses a text with more digits than this. *)
Definition max_str_digits : Z := 4300.

Definition count_digits (l : list ascii) : Z :=
  Z.of_nat (List.length (filter is_digit l)).

(** The digits after the sign, within the limit on their number. *)
Definition magnitude (l : list ascii) : option Z :=
  if max_str_digits <? count_digits l then None else digits 0 false l.

(** [int(s)] in base 10: surrounding whitespace is dropped, one sign is
    allowed; [None] is the [ValueError]. *)
Definition parse_int (s : string) : option Z :=
  match strip (list_ascii_of_string s) with
  | c :: t =>
      if Ascii.eqb c "+"%char then magnitude t
      else if Ascii.eqb c "-"%char then option_map Z.opp (magnitude t)
      else magnitude (c :: t)
  | [] => None
  end.

Definition int (s : string) : result Z :=
  match parse_int s with
  | Some z => Ok z
  | None => Raise ValueError
  end.

End PyStr.

(** ** The [datetime] module: [date], [time], [datetime], [timedelta] *)

Module Datetime.

Record date : Type := mkdate { year : Z; month : Z; day : Z }.

Record time : Type :=
  mktime { hour : Z; minute : Z; second : Z; microsecond : Z }.

Record datetime : Type := mkdatetime { on : date; at_ : time }.

Record timedelta : Type :=
  mktimedelta { days : Z; seconds : Z; microseconds : Z }.

Definition MINYEAR : Z := 1.
Definition MAXYEAR : Z := 9999.

Definition is_leap (y : Z) : bool :=
  (y mod 4 =? 0) && (negb (y mod 100 =? 0) || (y mod 400 =? 0)).

Definition days_in_month (y m : Z) : Z :=
  if m =? 2 then (if is_leap y then 29 else 28)
  else if (m =? 4) || (m =? 6) || (m =? 9) || (m =? 11) then 30
  else 31.

(** The arguments of the C constructors are converted to a C [int]. *)
Definition fits_c_int (z : Z) : bool :=
  (- 2147483648 <=? z) && (z <=? 2147483647).

Definition valid_date (y m d : Z) : bool :=
  (MINYEAR <=? y) && (y <=? MAXYEAR) &&
  (1 <=? m) && (m <=? 12) &&
  (1 <=? d) && (d <=? days_in_month y m).

Definition valid_time (h mi : Z) : bool :=
  (0 <=? h) && (h <=? 23) && (0 <=? mi) && (mi <=? 59).

(** [date(y, m, d)] *)
Definition new_date (y m d : Z) : result date :=
  if negb (fits_c_int y && fits_c_int m && fits_c_int d) then Raise OverflowError
  else if valid_date y m d then Ok (mkdate y m d)
  else Raise ValueError.

(** [time(hour=h, minute=mi)]: seconds and microseconds default to 0. *)
Definition new_time (h mi : Z) : result time :=
  if negb (fits_c_int h && fits_c_int mi) then Raise OverflowError
  else if valid_time h mi then Ok (mktime h mi 0 0)
  else Raise ValueError.

(** [datetime.combine(d, t)] *)
Definition combine (d : date) (t : time) : datetime := mkdatetime d t.

Definition days_before_year (y : Z) : Z :=
  let p := y - 1 in p * 365 + p / 4 - p / 100 + p / 400.

Fixpoint days_before_month_from (y : Z) (m : nat) : Z :=
  match m with
  | O => 0
  | S k => days_before_month_from y k + days_in_month y (Z.of_nat (S k))
  end.

(** Days of the year before the first day of month [m]. *)
Definition days_before_month (y m : Z) : Z :=
  days_before_month_from y (Z.to_nat (m - 1)).

Definition toordinal (d : date) : Z :=
  days_before_year (year d) + days_before_month (year d) (month d) + day d.

(** [timedelta(days, seconds, microseconds)]: the constructor normalises to
    [0 <= microseconds < 10^6] and [0 <= seconds < 86400], the sign going
    to [days]. *)
Definition new_timedelta (d s us : Z) : timedelta :=
  let s1 := s + us / 1000000 in
  mktimedelta (d + s1 / 86400) (s1 mod 86400) (us mod 1000000).

Definition seconds_of_day (t : time) : Z :=
  second t + minute t * 60 + hour t * 3600.

(** [a - b] on two [datetime] values. *)
Definition sub (a b : datetime) : timedelta :=
  new_timedelta (toordinal (on a) - toordinal (on b))
                (seconds_of_day (at_ a) - seconds_of_day (at_ b))
                (microsecond (at_ a) - microsecond (at_ b)).

(** The nearest integer to [n / d] for [0 < d], ties to the even one. *)
Definition round_half_even (n d : Z) : Z :=
  let q := n / d in
  let r := n mod d in
  if 2 * r <? d then q
  else if d <? 2 * r then q + 1
  else if Z.even q then q else q + 1.

(** [round(secs / 3600, 2)], as hundredths of an hour. *)
Definition round_hours (secs : Z) : Z := round_half_even (secs * 100) 3600.

(** Minutes since midnight of a clock time. *)
Definition minutes_of_day (t : time) : Z := hour t * 60 + minute t.

End Datetime.

(** ** Lines 537-539 of [AddWindow.add_button_action] *)

Definition no_of_hours (d : Datetime.date) (start_time end_time : Datetime.time) : Z :=
  let delta := Datetime.sub (Datetime.combine d end_time)
                            (Datetime.combine d start_time) in
  Datetime.round_hours (Datetime.seconds delta).

(** What the specification calls the duration of [m] minutes: [m / 60]
    hours rounded to two decimals, in hundredths. *)
Definition hours_of_minutes (m : Z) : Z := Datetime.round_half_even (m * 100) 60.

(** ** pandas: cells, dtype inference of [read_csv], [to_csv], frames

    A column of a CSV file is a list of words.  [read_csv] (C parser,
    default options) gives the whole column one dtype, tried in the order
    int64, float64, bool, object; the words of the missing-value list
    become NaN.  Values are limited to what [tolist()] and [itertuples()]
    can hand to the program: a [str], an [int], a [float], a [bool] or NaN. *)

Module Pandas.

Inductive cell : Type :=
| Str (s : string)
| Int (z : Z)
| Float (lit : string)   (* the double denoted by the word [lit] *)
| Bool (b : bool)
| NaN.

(** [isspace_ascii] of the tokenizer. *)
Definition is_space (c : ascii) : bool :=
  let n := PyStr.code c in (n =? 32) || ((9 <=? n) && (n <=? 13)).

Fixpoint skip_spaces (l : list ascii) : list ascii :=
  match l with
  | c :: t => if is_space c then skip_spaces t else l
  | [] => []
  end.

(** A run of digits: its value, its length and what follows it. *)
Fixpoint read_digits (acc : Z) (n : nat) (l : list ascii) : Z * nat * list ascii :=
  match l with
  | c :: t =>
      if PyStr.is_digit c then read_digits (10 * acc + PyStr.digit_value c) (S n) t
      else (acc, n, l)
  | [] => (acc, n, [])
  end.

Definition read_sign (l : list ascii) : bool * list ascii :=
  match l with
  | c :: t =>
      if Ascii.eqb c "-"%char then (true, t)
      else if Ascii.eqb c "+"%char then (false, t)
      else (false, l)
  | [] => (false, [])
  end.

(** [str_to_int64] without its range check: blanks, a sign, at least one
    digit, blanks. *)
Definition int_literal (s : string) : option Z :=
  let '(neg, l) := read_sign (skip_spaces (list_ascii_of_string s)) in
  let '(v, n, rest) := read_digits 0 0 l in
  match n, skip_spaces rest with
  | S _, [] => Some (if neg then - v else v)
  | _, _ => None
  end.

Definition is_exponent_mark (c : ascii) : bool :=
  Ascii.eqb c "e"%char || Ascii.eqb c "E"%char.

Definition lower (c : ascii) : ascii :=
  let n := PyStr.code c in
  if (65 <=? n) && (n <=? 90) then ascii_of_N (Z.to_N (n + 32)) else c.

Fixpoint lowercase (s : string) : string :=
  match s with
  | EmptyString => EmptyString
  | String c t => String (lower c) (lowercase t)
  end.

Definition mem (s : string) (l : list string) : bool := existsb (String.eqb s) l.

Definition infinity_words : list string :=
  ["inf"; "+inf"; "-inf"; "infinity"; "+infinity"; "-infinity"].

(** The digits [precise_xstrtod] takes into the mantissa, and into the
    exponent. *)
Definition max_digits : nat := 17.

(** What [precise_xstrtod] reads in a word it reads to its end: blanks, a
    sign, digits with at most one point and at least one digit, an optional
    exponent of one to [max_digits] digits, blanks.  It gives the power of
    ten the mantissa is left with (one for each digit of the integer part
    past [max_digits], minus the decimals taken into the mantissa) and the
    exponent written; [None] for any other word. *)
Definition float_exponent (s : string) : option (Z * Z) :=
  let '(_, l) := read_sign (skip_spaces (list_ascii_of_string s)) in
  let '(_, n1, r1) := read_digits 0 0 l in
  let '(n2, r2) :=
    match r1 with
    | "."%char :: t => let '(_, n, r) := read_digits 0 0 t in (n, r)
    | _ => (O, r1)
    end in
  if Nat.eqb (n1 + n2) 0 then None
  else
    let e := Z.of_nat (n1 - max_digits) - Z.of_nat (Nat.min n2 (max_digits - n1)) in
    match r2 with
    | c :: t =>
        if is_exponent_mark c then
          let '(neg, l1) := read_sign t in
          let '(v, n, rest) := read_digits 0 0 l1 in
          match n, skip_spaces rest with
          | S _, [] =>
              if Nat.leb n max_digits then Some (e, if neg then - v else v)
              else None
          | _, _ => None
          end
        else match skip_spaces r2 with [] => Some (e, 0) | _ => None end
    | [] => Some (e, 0)
    end.

(** [to_boolean]: the words true and false, in any case. *)
Definition bool_word (s : string) : option bool :=
  if String.eqb (lowercase s) "true" then Some true
  else if String.eqb (lowercase s) "false" then Some false
  else None.

(** The default missing-value words. *)
Definition na_values : list string :=
  [""; "#N/A"; "#N/A N/A"; "#NA"; "-1.#IND"; "-1.#QNAN"; "-NaN"; "-nan";
   "1.#IND"; "1.#QNAN"; "<NA>"; "N/A"; "NA"; "NULL"; "NaN"; "n/a"; "nan";
   "null"].

Definition is_na (s : string) : bool := mem s na_values.

Definition is_some {A : Type} (o : option A) : bool :=
  match o with Some _ => true | None => false end.

Definition in_int64 (z : Z) : bool :=
  (- 9223372036854775808 <=? z) && (z <=? 9223372036854775807).

Definition in_uint64 (z : Z) : bool :=
  (0 <=? z) && (z <=? 18446744073709551615).

Definition int_in (range : Z -> bool) (s : string) : bool :=
  match int_literal s with Some z => range z | None => false end.

(** What the integer converters make of a word. *)
Inductive reading : Type :=
| Number (z : Z)
| Negative      (* [str_to_uint64]: the word starts with a minus sign *)
| Overflow
| Invalid.

(** [str_to_int64]: blanks, a sign, at least one digit, blanks.  The digits
    are held against the range as they are read, so a run that leaves it
    is an overflow whatever follows it. *)
Definition to_int64 (s : string) : reading :=
  let '(neg, l) := read_sign (skip_spaces (list_ascii_of_string s)) in
  let '(v, n, rest) := read_digits 0 0 l in
  match n with
  | O => Invalid
  | S _ =>
      let z := if neg then - v else v in
      if in_int64 z then
        match skip_spaces rest with [] => Number z | _ => Invalid end
      else Overflow
  end.

(** [str_to_uint64]: a word that starts with a minus sign is set aside
    unread. *)
Definition to_uint64 (s : string) : reading :=
  let '(neg, l) := read_sign (skip_spaces (list_ascii_of_string s)) in
  if neg then Negative
  else
    let '(v, n, rest) := read_digits 0 0 l in
    match n with
    | O => Invalid
    | S _ =>
        if in_uint64 v then
          match skip_spaces rest with [] => Number v | _ => Invalid end
        else Overflow
    end.

(** How the conversion of a column ends: every word read, or the error of
    the first word that is not. *)
Inductive scan : Type := Read | StopOverflow | StopInvalid.

Fixpoint scan_column (read : string -> reading) (words : list string) : scan :=
  match words with
  | [] => Read
  | w :: t =>
      match read w with
      | Overflow => StopOverflow
      | Invalid => StopInvalid
      | _ => scan_column read t
      end
  end.

(** [uint_state]: a word above the int64 range, a word with a minus sign. *)
Definition seen_uint (words : list string) : bool :=
  existsb (fun s => match to_uint64 s with
                    | Number z => 9223372036854775807 <? z
                    | _ => false
                    end) words.

Definition seen_sint (words : list string) : bool :=
  existsb (fun s => match to_uint64 s with Negative => true | _ => false end) words.

Definition or_nan (f : string -> cell) (s : string) : cell :=
  if is_na s then NaN else f s.

Definition as_int (s : string) : cell :=
  match int_literal s with Some z => Int z | None => Str s end.

Definition as_bool (s : string) : cell :=
  match bool_word s with Some b => Bool b | None => Str s end.

(** [_maybe_upcast]: an int64 column with missing words becomes float64;
    the marker of a missing word is the least int64, and the cells whose
    double equals it are missing as well. *)
Definition upcast (s : string) : cell :=
  if is_na s then NaN
  else match int_literal s with
       | Some z => if z <=? - 9223372036854775808 + 512 then NaN else Float s
       | None => Float s
       end.

Section Reader.

(** Whether the double [precise_xstrtod] computes for a word is finite,
    asked where this hangs on the rounding of the product or on an overflow
    of its C [int] exponent. *)
Variable finite_double : string -> bool.

(** A word the double converter accepts: the power of ten of the mantissa
    of at most [max_digits] digits is at most 308 and the product is
    finite; or one of the words for infinity. *)
Definition float_literal (s : string) : bool :=
  match float_exponent s with
  | Some (e, x) =>
      if Z.abs x <=? 2147483647 - Z.abs e then
        if 308 <? e + x then false
        else if e + x <=? 291 then true
        else finite_double s
      else finite_double s
  | None => false
  end || mem (lowercase s) infinity_words.

(** The dtypes after the integers: float64, bool, then text. *)
Definition other_dtypes (col : list string) : list cell :=
  let words := filter (fun s => negb (is_na s)) col in
  if forallb float_literal words then map (or_nan Float) col
  else if forallb (fun s => is_some (bool_word s)) words then map (or_nan as_bool) col
  else map (or_nan Str) col.

(** The cells [read_csv] makes of one column of words.  The int64
    conversion is tried first; when it stops on an overflow the uint64
    conversion is tried, and when that one reads every word, a word above
    int64 beside a missing word or a minus sign leaves the column as text
    as it is, missing words included. *)
Definition infer_column (col : list string) : list cell :=
  let words := filter (fun s => negb (is_na s)) col in
  let missing := existsb is_na col in
  match scan_column to_int64 words with
  | Read =>
      if missing then map upcast col              (* float64 *)
      else map as_int col                         (* int64 *)
  | StopInvalid => other_dtypes col
  | StopOverflow =>
      match scan_column to_uint64 words with
      | Read =>
          if seen_uint words && (seen_sint words || missing) then map Str col
          else if seen_sint words then map (or_nan Str) col
          else map as_int col                     (* uint64 *)
      | StopOverflow => map (or_nan Str) col
      | StopInvalid => other_dtypes col
      end
  end.

(** A word that is neither missing, nor a number, nor a boolean: a column
    that holds one is left as text. *)
Definition plain_text (s : string) : bool :=
  negb (is_na s) && negb (is_some (int_literal s)) &&
  negb (float_literal s) && negb (is_some (bool_word s)).

End Reader.

(** A word whose digits leave the int64 range. *)
Definition overflows (s : string) : bool :=
  match to_int64 s with Overflow => true | _ => false end.

(** [x == c] for a [str] value [x]: only an equal [str] is equal to it. *)
Definition eq_str (x : string) (c : cell) : bool :=
  match c with
  | Str s => String.eqb x s
  | _ => false
  end.

(** [x in l] for a [str] value [x]. *)
Definition contains (l : list cell) (x : string) : bool := existsb (eq_str x) l.

(** A frame: rows under their index labels. *)
Definition frame (R : Type) : Type := list (Z * R).

Definition range_index {R : Type} (rows : list R) : frame R :=
  combine (map Z.of_nat (seq 0 (List.length rows))) rows.

Definition rows_of {R : Type} (df : frame R) : list R := map snd df.

(** [df.append(row, ignore_index=True)] *)
Definition append {R : Type} (df : frame R) (row : R) : frame R :=
  range_index (rows_of df ++ [row])%list.

Definition has_label {R : Type} (df : frame R) (k : Z) : bool :=
  existsb (fun p => fst p =? k) df.

(** [df.drop(k)]: the rows labelled [k] go, a [KeyError] when there is none. *)
Definition drop {R : Type} (df : frame R) (k : Z) : result (frame R) :=
  if has_label df k then Ok (filter (fun p => negb (fst p =? k)) df)
  else Raise KeyError.

Section Writer.

(** [repr] of the double a word denotes, as [to_csv] writes a float. *)
Variable float_repr : string -> string.

Definition render (c : cell) : string :=
  match c with
  | Str s => s
  | Int z => NilZero.string_of_int (Z.to_int z)
  | Float lit => float_repr lit
  | Bool true => "True"
  | Bool false => "False"
  | NaN => ""
  end.

End Writer.

End Pandas.

(** ** The two persisted tables

    [users_db.csv] has the columns Name, Surname, User id: three words a
    line.  [shift_db.csv] has the columns User id, Date, Start time, End
    time, No of hours.  The last four are only ever written by
    [add_button_action] (an ISO date, two ISO clock times, a float with two
    decimals) and are carried as the values they denote; the User id column
    is free text and goes through the dtype inference. *)

Record user_line : Type :=
  mkuser_line { Name : string; Surname : string; User_id : string }.

Record user_row : Type :=
  mkuser_row { name_cell : Pandas.cell; surname_cell : Pandas.cell;
               user_id_cell : Pandas.cell }.

Record shift_line : Type :=
  mkshift_line { line_user_id : string; line_date : Datetime.date;
                 line_start : Datetime.time; line_end : Datetime.time;
                 line_hours : Z }.

Record shift_row : Type :=
  mkshift_row { sh_user_id : Pandas.cell; sh_date : Datetime.date;
                sh_start_time : Datetime.time; sh_end_time : Datetime.time;
                sh_no_of_hours : Z }.

(** The file system as the program sees it: the two files under [data/]. *)
Record store : Type :=
  mkstore { users_db : list user_line; shift_db : list shift_line }.

Section Store.

(** The doubles [read_csv] takes as finite ([Pandas.float_literal]). *)
Variable finite_double : string -> bool.

(** [repr] of the double a word denotes ([Pandas.render]). *)
Variable float_repr : string -> string.

(** [pd.read_csv(path_to_users_db)] *)
Definition read_users (f : list user_line) : Pandas.frame user_row :=
  Pandas.range_index
    (map (fun t => mkuser_row (fst (fst t)) (snd (fst t)) (snd t))
         (combine (combine (Pandas.infer_column finite_double (map Name f))
                           (Pandas.infer_column finite_double (map Surname f)))
                  (Pandas.infer_column finite_double (map User_id f)))).

(** [pd.read_csv(path_to_shift_db)] *)
Definition read_shifts (f : list shift_line) : Pandas.frame shift_row :=
  Pandas.range_index
    (map (fun t => mkshift_row (fst t) (line_date (snd t)) (line_start (snd t))
                               (line_end (snd t)) (line_hours (snd t)))
         (combine (Pandas.infer_column finite_double (map line_user_id f)) f)).

(** A row of [itertuples()]: the index label, then the five columns. *)
Definition shift_tuple : Type := (Z * shift_row)%type.

(** ** The state of the running application *)

(** What a line of the tree view shows: Date, Start time, End time, No of
    hours. *)
Definition tree_values : Type :=
  (Datetime.date * Datetime.time * Datetime.time * Z)%type.

(** [HomeView]: the frame loaded when the view was built and the items of
    [tv_shift_table] under their item ids. *)
Record HomeView : Type :=
  mkHomeView { hv_shift_db : Pandas.frame shift_row;
               tv_shift_table : list (Z * tree_values) }.

Record app : Type := mkapp { files : store; home : HomeView }.

(** Callbacks run in a state and exception monad: an exception keeps the
    state reached when it was raised. *)
Definition M (A : Type) : Type := app -> result A * app.

Definition ret {A : Type} (a : A) : M A := fun s => (Ok a, s).

Definition bind {A B : Type} (m : M A) (k : A -> M B) : M B :=
  fun s => match m s with
           | (Ok a, s') => k a s'
           | (Raise e, s') => (Raise e, s')
           end.

Definition lift {A : Type} (r : result A) : M A := fun s => (r, s).

Definition get_files : M store := fun s => (Ok (files s), s).

Definition put_files (st : store) : M unit :=
  fun s => (Ok tt, mkapp st (home s)).

Definition get_home : M HomeView := fun s => (Ok (home s), s).

Definition put_home (hv : HomeView) : M unit :=
  fun s => (Ok tt, mkapp (files s) hv).

(** [try: body except ...: handler]; an exception without a clause goes on. *)
Definition try_except {A : Type} (body : M A) (handler : exn -> option (M A)) : M A :=
  fun s => match body s with
           | (Ok a, s') => (Ok a, s')
           | (Raise e, s') =>
               match handler e with
               | Some h => h s'
               | None => (Raise e, s')
               end
           end.

Notation "x <- c ;; k" := (bind c (fun x => k))
  (at level 61, c at next level, right associativity).
Notation "c ;;; k" := (bind c (fun _ => k))
  (at level 61, right associativity).

Fixpoint for_each {A : Type} (body : A -> M unit) (l : list A) : M unit :=
  match l with
  | [] => ret tt
  | x :: t => body x ;;; for_each body t
  end.

(** ** The tree view widget *)

Definition has_item (items : list (Z * tree_values)) (iid : Z) : bool :=
  existsb (fun p => fst p =? iid) items.

(** [tv.insert(parent='', index=i, iid=k, values=v)]: an item id in use is a
    [TclError]; an index past the end appends. *)
Definition tree_insert (i : nat) (iid : Z) (v : tree_values) : M unit :=
  hv <- get_home ;;
  if has_item (tv_shift_table hv) iid then lift (Raise TclError)
  else put_home (mkHomeView (hv_shift_db hv)
                   (firstn i (tv_shift_table hv) ++ (iid, v) :: skipn i (tv_shift_table hv))%list).

(** [tv.delete(iid)]: an unknown item is a [TclError]. *)
Definition tree_delete (iid : Z) : M unit :=
  hv <- get_home ;;
  if has_item (tv_shift_table hv) iid then
    put_home (mkHomeView (hv_shift_db hv)
                (filter (fun p => negb (fst p =? iid)) (tv_shift_table hv)))
  else lift (Raise TclError).

(** The text shown to the user or printed on the console. *)
Inductive message : Type :=
| Invalid_User_ID
| Fill_in_all_the_boxes
| User_ID_already_exists
| Account_created
| Value_Error_message
| Type_Error_message
| No_entry_selected
| Key_Error_printed
| Nothing.

(** The frame on top when a callback returns. *)
Inductive page : Type := LoginPage | HomePage | AddPage.

Notation "x <~ c ;; k" := (rbind c (fun x => k))
  (at level 61, c at next level, right associativity).

(** ** Lines 529-535 of [AddWindow.add_button_action]: the three parsing
    steps.  Python evaluates the arguments of a call from left to right, so
    the start time reads its hour first and the end time its minute first. *)

Definition entry_date (ent_year ent_month ent_day : string) : result Datetime.date :=
  y <~ PyStr.int ent_year ;;
  m <~ PyStr.int ent_month ;;
  d <~ PyStr.int ent_day ;;
  Datetime.new_date y m d.

Definition entry_start (ent_from : string) : result Datetime.time :=
  h_text <~ PyStr.index (PyStr.split PyStr.colon ent_from) 0 ;;
  h <~ PyStr.int h_text ;;
  m_text <~ PyStr.index (PyStr.split PyStr.colon ent_from) 1 ;;
  m <~ PyStr.int m_text ;;
  Datetime.new_time h m.

Definition entry_end (ent_to : string) : result Datetime.time :=
  m_text <~ PyStr.index (PyStr.split PyStr.colon ent_to) 1 ;;
  m <~ PyStr.int m_text ;;
  h_text <~ PyStr.index (PyStr.split PyStr.colon ent_to) 0 ;;
  h <~ PyStr.int h_text ;;
  Datetime.new_time h m.

(** [AddWindow.time_format_validate]: the key filter of the two time boxes.
    [s] is the text the box would hold after the edit, [action] is "1" for
    an insertion, [index] is where the edit takes place. *)
Definition time_format_validate (s action index : string) : result bool :=
  if String.eqb action "1" then
    wrong_third <~
      (if String.eqb index "2" then
         match String.get 2 s with
         | Some c => Ok (negb (Ascii.eqb c PyStr.colon))
         | None => Raise IndexError
         end
       else Ok false) ;;
    if wrong_third then Ok false
    else if (5 <? Z.of_nat (String.length s)) then Ok false
    else Ok true
  else Ok true.

(** [df.to_csv(path_to_users_db, index=False)] *)
Definition write_users (df : Pandas.frame user_row) : list user_line :=
  map (fun r => mkuser_line (Pandas.render float_repr (name_cell r))
                            (Pandas.render float_repr (surname_cell r))
                            (Pandas.render float_repr (user_id_cell r)))
      (Pandas.rows_of df).

(** [df.to_csv(path_to_shift_db, index=False)] *)
Definition write_shifts (df : Pandas.frame shift_row) : list shift_line :=
  map (fun r => mkshift_line (Pandas.render float_repr (sh_user_id r))
                             (sh_date r) (sh_start_time r) (sh_end_time r)
                             (sh_no_of_hours r))
      (Pandas.rows_of df).

(** *** class [FileManager] *)

Definition check_if_userid_exists (st : store) (userid : string) : bool :=
  let user_id_list := map user_id_cell (Pandas.rows_of (read_users (users_db st))) in
  if negb (Pandas.contains user_id_list userid) then false else true.

Definition save_to_userList (st : store) (name surname userid : string) : store :=
  let new_user := mkuser_row (Pandas.Str name) (Pandas.Str surname) (Pandas.Str userid) in
  let updated_user_db_df := Pandas.append (read_users (users_db st)) new_user in
  mkstore (write_users updated_user_db_df) (shift_db st).

Definition updated_shift_db (st : store) (df : Pandas.frame shift_row) : store :=
  mkstore (users_db st) (write_shifts df).

Definition add_entry_to_shift_db (st : store) (userid : string)
    (date : Datetime.date) (start_time end_time : Datetime.time) (hours : Z) : store :=
  let shift_db_df := read_shifts (shift_db st) in
  let new_shift_entry := mkshift_row (Pandas.Str userid) date start_time end_time hours in
  updated_shift_db st (Pandas.append shift_db_df new_shift_entry).

Definition get_user_specific_entry (st : store) (userid : string) : list shift_tuple :=
  filter (fun row => Pandas.eq_str userid (sh_user_id (snd row)))
         (read_shifts (shift_db st)).

(** *** class [HomeView] *)

(** [__init__]: [self.shift_db = self.fmanager.shift_db_df], the frame read
    when the [FileManager] of the view was built; an empty tree. *)
Definition HomeView_init (st : store) : HomeView :=
  mkHomeView (read_shifts (shift_db st)) [].

Definition values_of (row : shift_tuple) : tree_values :=
  (sh_date (snd row), sh_start_time (snd row), sh_end_time (snd row),
   sh_no_of_hours (snd row)).

Definition populate_tree (userid : string) : M unit :=
  st <- get_files ;;
  let tbl_values := get_user_specific_entry st userid in
  for_each (fun p => tree_insert (fst p) (Z.of_nat (fst p)) (values_of (snd p)))
           (combine (seq 0 (List.length tbl_values)) tbl_values).

Definition update_shift_entry_table (date : Datetime.date)
    (start_time end_time : Datetime.time) (hours : Z) : M unit :=
  hv <- get_home ;;
  let n := S (List.length (tv_shift_table hv)) in
  tree_insert n (Z.of_nat n) (date, start_time, end_time, hours).

(** [selection] is what [tv_shift_table.selection()] returns. *)
Definition delete_selected_entry (selection : list Z) : M message :=
  printed <- try_except
    (selected_entry <- lift (PyStr.index selection 0) ;;
     tree_delete selected_entry ;;;
     hv <- get_home ;;
     df <- lift (Pandas.drop (hv_shift_db hv) selected_entry) ;;
     put_home (mkHomeView df (tv_shift_table hv)) ;;;
     ret Nothing)
    (fun e => match e with
              | IndexError => Some (ret No_entry_selected)
              | KeyError => Some (ret Key_Error_printed)
              | _ => None
              end) ;;
  st <- get_files ;;
  hv <- get_home ;;
  put_files (updated_shift_db st (hv_shift_db hv)) ;;;
  ret printed.

Definition clear_tree_data : M unit :=
  hv <- get_home ;;
  put_home (mkHomeView (hv_shift_db hv) []).

Definition log_out_user : M page :=
  clear_tree_data ;;; ret LoginPage.

(** *** class [LoginView] *)

Definition login_user (userid : string) : M (message * page) :=
  st <- get_files ;;
  if negb (check_if_userid_exists st userid) then ret (Invalid_User_ID, LoginPage)
  else populate_tree userid ;;; ret (Nothing, HomePage).

Definition create_user (name surname userid : string) : M message :=
  st <- get_files ;;
  if String.eqb name "" || String.eqb surname "" || String.eqb userid "" then
    ret Fill_in_all_the_boxes
  else if check_if_userid_exists st userid then ret User_ID_already_exists
  else put_files (save_to_userList st name surname userid) ;;; ret Account_created.

(** *** class [AddWindow] *)

Definition add_button_action (username ent_year ent_month ent_day ent_from ent_to : string)
  : M (message * page) :=
  try_except
    (date <- lift (entry_date ent_year ent_month ent_day) ;;
     start_time <- lift (entry_start ent_from) ;;
     end_time <- lift (entry_end ent_to) ;;
     let hours := no_of_hours date start_time end_time in
     st <- get_files ;;
     put_files (add_entry_to_shift_db st username date start_time end_time hours) ;;;
     update_shift_entry_table date start_time end_time hours ;;;
     ret (Nothing, HomePage))
    (fun e => match e with
              | ValueError => Some (ret (Value_Error_message, AddPage))
              | TypeError => Some (ret (Type_Error_message, AddPage))
              | _ => None
              end).

(** The application right after start: every view is built on the files
    as they are then. *)
Definition start_app (st : store) : app := mkapp st (HomeView_init st).

(** *** The main loop

    [root.mainloop()] runs one callback per user action.  An exception that
    leaves a callback is reported by Tk and the loop goes on with the state
    reached. *)

Inductive event : Type :=
| Create (name surname userid : string)
| Login (userid : string)
| Logout
| Add (username ent_year ent_month ent_day ent_from ent_to : string)
| Delete (selection : list Z).

Definition handle (ev : event) (a : app) : app :=
  match ev with
  | Create name surname userid => snd (create_user name surname userid a)
  | Login userid => snd (login_user userid a)
  | Logout => snd (log_out_user a)
  | Add username y m d f t => snd (add_button_action username y m d f t a)
  | Delete selection => snd (delete_selected_entry selection a)
  end.

Definition mainloop (evs : list event) (a : app) : app := fold_left (fun s ev => handle ev s) evs a.

(** ** Invariants of the callbacks *)

(** A callback that leaves the frame held by the home view alone. *)
Definition keeps_frame {A : Type} (m : M A) : Prop :=
  forall a, hv_shift_db (home (snd (m a))) = hv_shift_db (home a).

(** The items the tree lets go while the events [evs] are handled from the
    state [a]: the first item of each selection to delete, when the tree
    holds it. *)
Fixpoint deleted_items (evs : list event) (a : app) : list Z :=
  match evs with
  | [] => []
  | ev :: rest =>
      (match ev with
       | Delete (k :: _) => if has_item (tv_shift_table (home a)) k then [k] else []
       | _ => []
       end ++ deleted_items rest (handle ev a))%list
  end.

(** A frame less the rows under the labels [gone]. *)
Definition less_rows {R : Type} (df : Pandas.frame R) (gone : list Z) : Pandas.frame R :=
  filter (fun p => negb (existsb (Z.eqb (fst p)) gone)) df.

(** ** Sample data *)

Definition march_1st : Datetime.date := Datetime.mkdate 2024 3 1.
Definition march_2nd : Datetime.date := Datetime.mkdate 2024 3 2.

Definition clock (h m : Z) : Datetime.time := Datetime.mktime h m 0 0.

(** Both files with their header line only. *)
Definition empty_store : store := mkstore [] [].

(** One shift of alice, then one of bob. *)
Definition two_users_store : store :=
  mkstore [mkuser_line "Alice" "Stone" "alice"; mkuser_line "Bob" "Ray" "bob"]
          [mkshift_line "alice" march_1st (clock 9 0) (clock 17 0) 800;
           mkshift_line "bob" march_2nd (clock 10 0) (clock 12 0) 200].

(** ** Other callbacks of [main.py] *)

(** Every character below 128. *)
Definition is_ascii (s : string) : bool :=
  forallb (fun c => PyStr.code c <? 128) (list_ascii_of_string s).

(** [s.isdigit()] on ASCII text: at least one character, all of them
    digits. *)
Definition isdigit (s : string) : bool :=
  match s with
  | EmptyString => false
  | String _ _ => forallb PyStr.is_digit (list_ascii_of_string s)
  end.

(** [AddWindow.only_digits_allowed]: the key filter of the three date
    boxes; [s] is the text the box would hold after the edit. *)
Definition only_digits_allowed (s action : string) : bool :=
  if String.eqb action "1" then
    if negb (isdigit s) then false else true
  else true.

(** The text shown in an untouched time box. *)
Definition placeholder : string := "HH:MM".

(** The two time boxes of [AddWindow]. *)
Record time_boxes : Type := mkboxes { ent_from : string; ent_to : string }.

(** [ent.insert(0, text)] on a time box: the edit goes through the key
    filter and is dropped unless the filter answers [True]. *)
Definition insert_at_start (box text : string) : string :=
  match time_format_validate (text ++ box) "1" "0" with
  | Ok true => text ++ box
  | _ => box
  end.

(** [AddWindow.on_entry_click] *)
Definition on_entry_click (b : time_boxes) : time_boxes :=
  let b1 := if String.eqb (ent_from b) placeholder then mkboxes "" (ent_to b) else b in
  if String.eqb (ent_to b1) placeholder then mkboxes (ent_from b1) "" else b1.

(** [AddWindow.on_focus_out] *)
Definition on_focus_out (b : time_boxes) : time_boxes :=
  let b1 := if String.eqb (ent_from b) "" then
              mkboxes (insert_at_start (ent_from b) placeholder) (ent_to b)
            else b in
  if String.eqb (ent_to b1) "" then
    mkboxes (ent_from b1) (insert_at_start (ent_to b1) placeholder)
  else b1.

(** [MainApp.frames]: each page under its name, with whether it is on the
    grid. *)
Definition frames : Type := list (string * bool).

Definition grid_remove_all (fs : frames) : frames :=
  map (fun p => (fst p, false)) fs.

Definition grid (page_name : string) (fs : frames) : frames :=
  map (fun p => if String.eqb (fst p) page_name then (fst p, true) else p) fs.

Definition has_page (fs : frames) (page_name : string) : bool :=
  existsb (fun p => String.eqb (fst p) page_name) fs.

(** [MainApp.show_frame]: every frame leaves the grid, then
    [self.frames[page_name]] is put on it; an unknown name is a
    [KeyError]. *)
Definition show_frame (page_name : string) (fs : frames) : result unit * frames :=
  let hidden := grid_remove_all fs in
  if has_page hidden page_name then (Ok tt, grid page_name hidden)
  else (Raise KeyError, hidden).

(** The names of the pages on the grid. *)
Definition shown (fs : frames) : list string :=
  map fst (filter (fun p => snd p) fs).

(** The lines of a file but the one at position [k]. *)
Definition without_line {A : Type} (k : nat) (l : list A) : list A :=
  (firstn k l ++ skipn (S k) l)%list.

(** The items [populate_tree] makes of the rows of a user. *)
Definition items_of (tbl_values : list shift_tuple) : list (Z * tree_values) :=
  map (fun p => (Z.of_nat (fst p), values_of (snd p)))
      (combine (seq 0 (List.length tbl_values)) tbl_values).

(** A shift line as [read_csv] gives it when its user id stays text. *)
Definition text_row (l : shift_line) : shift_row :=
  mkshift_row (Pandas.Str (line_user_id l)) (line_date l) (line_start l)
              (line_end l) (line_hours l).

(** Every user id of the shift file is plain text. *)
Definition plain_shift_file (f : list shift_line) : bool :=
  forallb (fun l => Pandas.plain_text finite_double (line_user_id l)) f.

(** Every user id of the users file, missing words apart, is an integer
    that fits 64 bits. *)
Definition numeric_ids (f : list user_line) : bool :=
  forallb (fun l => Pandas.is_na (User_id l) || Pandas.int_in Pandas.in_int64 (User_id l)) f.

(** No user id of the two files is a number outside the int64 range. *)
Definition ids_fit_int64 (st : store) : bool :=
  forallb (fun l => negb (Pandas.overflows (User_id l))) (users_db st) &&
  forallb (fun l => negb (Pandas.overflows (line_user_id l))) (shift_db st).

(** A callback that leaves both files alone. *)
Definition keeps_files {A : Type} (m : M A) : Prop :=
  forall a, files (snd (m a)) = files a.

(** The pages [MainApp.__init__] builds, each put on the grid as it is
    built, before [show_frame("LoginView")]. *)
Definition MainApp_frames : frames :=
  [("LoginView", true); ("HomeView", true); ("AddWindow", true)].

(** One registered user, ann, with three shifts. *)
Definition ann_store : store :=
  mkstore [mkuser_line "Ann" "Lee" "ann"]
          [mkshift_line "ann" march_1st (clock 9 0) (clock 17 0) 800;
           mkshift_line "ann" march_2nd (clock 10 0) (clock 12 0) 200;
           mkshift_line "ann" march_2nd (clock 13 0) (clock 18 30) 550].

(** * Properties *)

(** ** Duration arithmetic *)

Lemma round_half_even_scale (n d k : Z) :
  0 < d -> 0 < k ->
  Datetime.round_half_even (n * k) (d * k) = Datetime.round_half_even n d.
Proof.
  intros Hd Hk. unfold Datetime.round_half_even.
  rewrite Z.div_mul_cancel_r by lia.
  rewrite Z.mul_mod_distr_r by lia.
  replace (2 * (n mod d * k) <? d * k) with (2 * (n mod d) <? d).
  2:{ destruct (Z.ltb_spec (2 * (n mod d)) d), (Z.ltb_spec (2 * (n mod d * k)) (d * k));
      try reflexivity; nia. }
  replace (d * k <? 2 * (n mod d * k)) with (d <? 2 * (n mod d)).
  2:{ destruct (Z.ltb_spec d (2 * (n mod d))), (Z.ltb_spec (d * k) (2 * (n mod d * k)));
      try reflexivity; nia. }
  reflexivity.
Qed.

(** Rounding the hours of a whole number of minutes. *)
Lemma round_hours_of_minutes (m : Z) :
  Datetime.round_hours (m * 60) = hours_of_minutes m.
Proof.
  unfold Datetime.round_hours, hours_of_minutes.
  replace (m * 60 * 100) with (m * 100 * 60) by lia.
  change 3600 with (60 * 60).
  apply round_half_even_scale; lia.
Qed.

(** A whole number of minutes is never half-way between two hundredths of
    an hour: the tie rule of [round] is not exercised by the program. *)
Lemma whole_minutes_never_tie (m : Z) :
  2 * ((m * 60 * 100) mod 3600) <> 3600.
Proof.
  intros H.
  pose proof (Z.div_mod (m * 60 * 100) 3600 ltac:(lia)) as E.
  lia.
Qed.

Lemma hours_of_minutes_bounds (m : Z) :
  0 < m < 1440 -> 0 < hours_of_minutes m < 2400.
Proof.
  intros Hm. unfold hours_of_minutes, Datetime.round_half_even.
  pose proof (Z.div_mod (m * 100) 60 ltac:(lia)) as E.
  pose proof (Z.mod_pos_bound (m * 100) 60 ltac:(lia)) as B.
  destruct (2 * ((m * 100) mod 60) <? 60);
    [|destruct (60 <? 2 * ((m * 100) mod 60));
      [|destruct (Z.even (m * 100 / 60))]]; lia.
Qed.

(** The difference of two instants of one day keeps the seconds only. *)
Lemma sub_same_day (d : Datetime.date) (a b : Datetime.time) :
  Datetime.microsecond a = 0 -> Datetime.microsecond b = 0 ->
  Datetime.sub (Datetime.combine d a) (Datetime.combine d b) =
  Datetime.new_timedelta 0 (Datetime.seconds_of_day a - Datetime.seconds_of_day b) 0.
Proof.
  intros Ha Hb. unfold Datetime.sub, Datetime.combine. simpl.
  rewrite Z.sub_diag, Ha, Hb. reflexivity.
Qed.

Lemma new_time_inv (h m : Z) (t : Datetime.time) :
  Datetime.new_time h m = Ok t ->
  t = Datetime.mktime h m 0 0 /\ 0 <= h <= 23 /\ 0 <= m <= 59.
Proof.
  unfold Datetime.new_time, Datetime.valid_time.
  destruct (negb _); [discriminate|].
  destruct (_ && _) eqn:V; [|discriminate].
  intros [= <-]. split; [reflexivity|].
  repeat rewrite andb_true_iff in V. lia.
Qed.

Lemma seconds_of_clock (h m : Z) :
  Datetime.seconds_of_day (Datetime.mktime h m 0 0) =
  Datetime.minutes_of_day (Datetime.mktime h m 0 0) * 60.
Proof.
  unfold Datetime.seconds_of_day, Datetime.minutes_of_day. simpl. lia.
Qed.

(** [.seconds] of [end - start] on one day: the minutes between the two
    clock times, counted forward modulo 24 hours. *)
Lemma seconds_between (d : Datetime.date) (sh sm eh em : Z) (s e : Datetime.time) :
  Datetime.new_time sh sm = Ok s -> Datetime.new_time eh em = Ok e ->
  Datetime.seconds (Datetime.sub (Datetime.combine d e) (Datetime.combine d s)) =
  ((Datetime.minutes_of_day e - Datetime.minutes_of_day s) mod 1440) * 60.
Proof.
  intros Hs He.
  apply new_time_inv in Hs as (-> & Hsh & Hsm).
  apply new_time_inv in He as (-> & Heh & Hem).
  rewrite sub_same_day by reflexivity.
  unfold Datetime.new_timedelta. cbn [Datetime.seconds].
  rewrite !seconds_of_clock.
  change (0 / 1000000) with 0. rewrite Z.add_0_r.
  rewrite <- Z.mul_sub_distr_r.
  change 86400 with (1440 * 60).
  apply Z.mul_mod_distr_r; lia.
Qed.

(** The hundredths of an hour chosen for a whole number of minutes are the
    nearest ones: the distance is under half a hundredth. *)
Lemma hours_of_minutes_nearest (m : Z) :
  - 30 < 100 * m - 60 * hours_of_minutes m < 30.
Proof.
  unfold hours_of_minutes, Datetime.round_half_even.
  pose proof (Z.div_mod (m * 100) 60 ltac:(lia)) as E.
  pose proof (Z.mod_pos_bound (m * 100) 60 ltac:(lia)) as B.
  destruct (Z.ltb_spec (2 * ((m * 100) mod 60)) 60); [lia|].
  destruct (Z.ltb_spec 60 (2 * ((m * 100) mod 60))); [lia|].
  exfalso. lia.
Qed.

(** C1.  For every valid calendar date and every two valid clock times
    with the end after the start, the hours computed by [add_button_action]
    are (end - start) in hours rounded to two decimals: counted in
    hundredths of an hour they are positive and lie less than half a
    hundredth from the minutes between the two times divided by 60, which
    leaves one value only.  On 2024-03-01 from 09:00 to 17:30 they are
    8.5, and from 09:00 to 09:40 they are 0.67. *)
Theorem C1_duration_same_day :
  (forall y m d sh sm eh em date s e,
      Datetime.new_date y m d = Ok date ->
      Datetime.new_time sh sm = Ok s ->
      Datetime.new_time eh em = Ok e ->
      Datetime.minutes_of_day s < Datetime.minutes_of_day e ->
      0 < no_of_hours date s e /\
      - 30 < 100 * (Datetime.minutes_of_day e - Datetime.minutes_of_day s)
             - 60 * no_of_hours date s e < 30)
  /\ (Datetime.new_date 2024 3 1 = Ok march_1st /\
      Datetime.new_time 9 0 = Ok (clock 9 0) /\
      Datetime.new_time 17 30 = Ok (clock 17 30) /\
      no_of_hours march_1st (clock 9 0) (clock 17 30) = 850 /\
      no_of_hours march_1st (clock 9 0) (clock 9 40) = 67).
Proof.
  split; [|repeat split; reflexivity].
  intros y m d sh sm eh em date s e _ Hs He Hlt.
  unfold no_of_hours.
  rewrite (seconds_between date sh sm eh em s e Hs He).
  apply new_time_inv in Hs as (-> & Hsh & Hsm).
  apply new_time_inv in He as (-> & Heh & Hem).
  unfold Datetime.minutes_of_day in *.
  cbn [Datetime.hour Datetime.minute] in *.
  rewrite Z.mod_small by lia.
  rewrite round_hours_of_minutes.
  split; [apply hours_of_minutes_bounds; lia|apply hours_of_minutes_nearest].
Qed.

(** C2 (as amended).  With the end time earlier than the start time the
    hours are not negative: [.seconds] of the normalised difference counts
    forward to the end time on the next day, so the result is 24 hours
    plus (end - start), rounded to two decimals, strictly between 0 and
    24. *)
Theorem C2_duration_wraps :
  forall y m d sh sm eh em date s e,
    Datetime.new_date y m d = Ok date ->
    Datetime.new_time sh sm = Ok s ->
    Datetime.new_time eh em = Ok e ->
    Datetime.minutes_of_day e < Datetime.minutes_of_day s ->
    no_of_hours date s e =
    hours_of_minutes (1440 + Datetime.minutes_of_day e - Datetime.minutes_of_day s)
    /\ 0 < no_of_hours date s e < 2400.
Proof.
  intros y m d sh sm eh em date s e _ Hs He Hlt.
  unfold no_of_hours.
  rewrite (seconds_between date sh sm eh em s e Hs He).
  apply new_time_inv in Hs as (-> & Hsh & Hsm).
  apply new_time_inv in He as (-> & Heh & Hem).
  unfold Datetime.minutes_of_day in *.
  cbn [Datetime.hour Datetime.minute] in *.
  replace ((eh * 60 + em - (sh * 60 + sm)) mod 1440)
    with (1440 + (eh * 60 + em) - (sh * 60 + sm))
    by (apply Z.mod_unique with (q := -1); lia).
  rewrite round_hours_of_minutes.
  split; [reflexivity|].
  apply hours_of_minutes_bounds. lia.
Qed.

(** ** Splitting and reading the entry boxes *)

Lemma split_without_sep (sep : ascii) (s : string) :
  PyStr.has_char sep s = false -> PyStr.split sep s = [s].
Proof.
  induction s as [|c s IH]; simpl; [reflexivity|].
  intros H. apply orb_false_iff in H as [Hc Hs].
  rewrite Hc, (IH Hs). reflexivity.
Qed.

Lemma split_at_first_sep (sep : ascii) (a b : string) :
  PyStr.has_char sep a = false ->
  PyStr.split sep (a ++ String sep b) = a :: PyStr.split sep b.
Proof.
  induction a as [|c a IH]; simpl.
  - intros _. rewrite Ascii.eqb_refl. reflexivity.
  - intros H. apply orb_false_iff in H as [Hc Ha].
    rewrite Hc, (IH Ha). reflexivity.
Qed.

Lemma digits_chars (l : list ascii) :
  forall acc after z, PyStr.digits acc after l = Some z ->
    Forall (fun c => PyStr.is_digit c = true \/ c = "_"%char) l.
Proof.
  induction l as [|c l IH]; intros acc after z H; [constructor|].
  simpl in H. destruct (PyStr.is_digit c) eqn:D.
  - constructor; [now left | eapply IH; eassumption].
  - destruct (Ascii.eqb_spec c "_"%char) as [->|]; [|discriminate].
    destruct after; [|discriminate].
    constructor; [now right | eapply IH; eassumption].
Qed.

Lemma lstrip_keeps (l : list ascii) (c : ascii) :
  In c l -> PyStr.is_space c = true \/ In c (PyStr.lstrip l).
Proof.
  induction l as [|a l IH]; simpl; [tauto|].
  intros [->|H].
  - destruct (PyStr.is_space c) eqn:S; [now left | right; now left].
  - destruct (PyStr.is_space a); [auto | right; now right].
Qed.

Lemma strip_keeps (l : list ascii) (c : ascii) :
  In c l -> PyStr.is_space c = true \/ In c (PyStr.strip l).
Proof.
  intros H. unfold PyStr.strip.
  destruct (lstrip_keeps l c H) as [S|H1]; [now left|].
  apply in_rev in H1.
  destruct (lstrip_keeps _ c H1) as [S|H2]; [now left|].
  right. now apply in_rev in H2.
Qed.

Lemma has_char_In (sep : ascii) (s : string) :
  PyStr.has_char sep s = true -> In sep (list_ascii_of_string s).
Proof.
  induction s as [|c s IH]; simpl; [discriminate|].
  intros H. apply orb_true_iff in H as [H|H].
  - left. now apply Ascii.eqb_eq.
  - right. auto.
Qed.

(** A text [int] accepts holds no colon. *)
Lemma parse_int_no_colon (s : string) (z : Z) :
  PyStr.parse_int s = Some z -> PyStr.has_char PyStr.colon s = false.
Proof.
  intros H. destruct (PyStr.has_char PyStr.colon s) eqn:C; [|reflexivity].
  exfalso. apply has_char_In in C.
  destruct (strip_keeps _ _ C) as [S|I]; [discriminate S|].
  unfold PyStr.parse_int in H.
  destruct (PyStr.strip (list_ascii_of_string s)) as [|c t]; [discriminate|].
  assert (T : forall l v, PyStr.magnitude l = Some v -> ~ In PyStr.colon l).
  { intros l v E I'. unfold PyStr.magnitude in E.
    destruct (_ <? _); [discriminate|]. apply digits_chars in E.
    rewrite Forall_forall in E. destruct (E _ I') as [D|D]; discriminate D. }
  destruct (Ascii.eqb_spec c "+"%char) as [->|Np].
  { destruct I as [I|I]; [discriminate I|]. eapply T; eassumption. }
  destruct (Ascii.eqb_spec c "-"%char) as [->|Nm].
  { destruct I as [I|I]; [discriminate I|].
    destruct (PyStr.magnitude t) eqn:E; [|discriminate].
    eapply T; eassumption. }
  eapply T; eassumption.
Qed.

Lemma int_ok (s : string) (z : Z) :
  PyStr.parse_int s = Some z -> PyStr.int s = Ok z.
Proof. unfold PyStr.int. now intros ->. Qed.

Lemma new_time_ok (h m : Z) :
  0 <= h <= 23 -> 0 <= m <= 59 -> Datetime.new_time h m = Ok (clock h m).
Proof.
  intros Hh Hm. unfold Datetime.new_time, Datetime.fits_c_int, Datetime.valid_time.
  replace (-2147483648 <=? h) with true by (symmetry; apply Z.leb_le; lia).
  replace (h <=? 2147483647) with true by (symmetry; apply Z.leb_le; lia).
  replace (-2147483648 <=? m) with true by (symmetry; apply Z.leb_le; lia).
  replace (m <=? 2147483647) with true by (symmetry; apply Z.leb_le; lia).
  replace (0 <=? h) with true by (symmetry; apply Z.leb_le; lia).
  replace (h <=? 23) with true by (symmetry; apply Z.leb_le; lia).
  replace (0 <=? m) with true by (symmetry; apply Z.leb_le; lia).
  replace (m <=? 59) with true by (symmetry; apply Z.leb_le; lia).
  reflexivity.
Qed.

(** C10.  The two time boxes do not need two-digit fields: a text made of
    an hour part, a colon and a minute part, where [int] reads the hour
    part as a number from 0 to 23 and the minute part as a number from 0 to
    59, is accepted as that hour and minute, whatever its length (so also
    within the five characters the entry box lets through); "9:5" is
    09:05. *)
Theorem C10_time_fields_need_not_be_two_digits :
  (forall hs ms h m,
      PyStr.parse_int hs = Some h -> PyStr.parse_int ms = Some m ->
      0 <= h <= 23 -> 0 <= m <= 59 ->
      entry_start (hs ++ ":" ++ ms) = Ok (clock h m) /\
      entry_end (hs ++ ":" ++ ms) = Ok (clock h m))
  /\ entry_start "9:5" = Ok (clock 9 5)
  /\ entry_end "9:5" = Ok (clock 9 5).
Proof.
  split; [|split; reflexivity].
  intros hs ms h m Hh Hm Rh Rm.
  assert (S : PyStr.split PyStr.colon (hs ++ ":" ++ ms) = [hs; ms]).
  { change (hs ++ ":" ++ ms)%string with (hs ++ String PyStr.colon ms)%string.
    rewrite split_at_first_sep by (eapply parse_int_no_colon; eassumption).
    rewrite split_without_sep by (eapply parse_int_no_colon; eassumption).
    reflexivity. }
  unfold entry_start, entry_end. rewrite S.
  cbn [PyStr.index nth_error rbind].
  rewrite (int_ok _ _ Hh), (int_ok _ _ Hm).
  cbn [rbind]. rewrite (new_time_ok h m Rh Rm). split; reflexivity.
Qed.

(** The key filter lets "9:5" in: typed from left to right its third key is
    refused (position 2 must hold a colon), but "95" followed by a colon
    inserted at position 1 goes through. *)
Lemma nine_colon_five_can_be_entered :
  time_format_validate "9" "1" "0" = Ok true /\
  time_format_validate "95" "1" "1" = Ok true /\
  time_format_validate "9:5" "1" "1" = Ok true /\
  time_format_validate "9:5" "1" "2" = Ok false.
Proof. repeat split; reflexivity. Qed.

(** ** [add_button_action]: parsing comes before the write *)

(** When the three steps succeed the shift file is rewritten with the new
    line at its end. *)
Lemma add_button_action_writes (username y m d f t : string) (a : app)
      (date : Datetime.date) (s e : Datetime.time) :
  entry_date y m d = Ok date -> entry_start f = Ok s -> entry_end t = Ok e ->
  files (snd (add_button_action username y m d f t a)) =
  add_entry_to_shift_db (files a) username date s e (no_of_hours date s e).
Proof.
  intros Hd Hs He.
  unfold add_button_action, try_except, bind, lift. rewrite Hd, Hs, He.
  cbn [get_files put_files fst snd].
  unfold update_shift_entry_table, tree_insert, bind, get_home, lift, put_home.
  cbn [home files].
  destruct (has_item _ _); reflexivity.
Qed.

(** C7.  When the date, the start time or the end time of an entry does
    not parse, [add_button_action] leaves the application state, and so the
    shift file, exactly as it was: the three parsing steps all come before
    the call of the store. *)
Theorem C7_no_write_on_validation_failure :
  forall username y m d f t a,
    (exists e, entry_date y m d = Raise e) \/
    (exists e, entry_start f = Raise e) \/
    (exists e, entry_end t = Raise e) ->
    snd (add_button_action username y m d f t a) = a /\
    shift_db (files (snd (add_button_action username y m d f t a))) =
    shift_db (files a).
Proof.
  intros username y m d f t a H.
  assert (E : snd (add_button_action username y m d f t a) = a).
  { unfold add_button_action, try_except, bind, lift.
    destruct (entry_date y m d) as [date|e1].
    2:{ destruct e1; reflexivity. }
    destruct (entry_start f) as [s|e2].
    2:{ destruct e2; reflexivity. }
    destruct (entry_end t) as [e|e3].
    2:{ destruct e3; reflexivity. }
    exfalso. destruct H as [[x H]|[[x H]|[x H]]]; discriminate H. }
  split; [exact E | now rewrite E].
Qed.

(** C8.  "25:00" does not parse in either time box: [time] refuses the hour
    25 with a [ValueError].  An entry with "25:00" as its start or as its
    end never ends on the home page, and leaves the state, and so the shift
    file, as it was. *)
Theorem C8_hour_25_rejected :
  Datetime.new_time 25 0 = Raise ValueError /\
  entry_start "25:00" = Raise ValueError /\
  entry_end "25:00" = Raise ValueError /\
  forall username y m d other a,
    snd (add_button_action username y m d "25:00" other a) = a /\
    snd (add_button_action username y m d other "25:00" a) = a /\
    fst (add_button_action username y m d "25:00" other a) <> Ok (Nothing, HomePage) /\
    fst (add_button_action username y m d other "25:00" a) <> Ok (Nothing, HomePage).
Proof.
  repeat (split; [reflexivity|]).
  intros username y m d other a.
  assert (S : entry_start "25:00" = Raise ValueError) by reflexivity.
  assert (E : entry_end "25:00" = Raise ValueError) by reflexivity.
  unfold add_button_action, try_except, bind, lift. rewrite S, E.
  destruct (entry_date y m d) as [date|e1].
  - destruct (entry_start other) as [s|e2].
    + repeat split; discriminate.
    + destruct e2; repeat split; discriminate.
  - destruct e1; repeat split; discriminate.
Qed.

(** ** The frame of the home view *)

Create HintDb frame.

Lemma keeps_ret {A : Type} (x : A) : keeps_frame (ret x).
Proof. intros a. reflexivity. Qed.

Lemma keeps_lift {A : Type} (r : result A) : keeps_frame (lift r).
Proof. intros a. reflexivity. Qed.

Lemma keeps_get_files : keeps_frame get_files.
Proof. intros a. reflexivity. Qed.

Lemma keeps_get_home : keeps_frame get_home.
Proof. intros a. reflexivity. Qed.

Lemma keeps_put_files (st : store) : keeps_frame (put_files st).
Proof. intros a. reflexivity. Qed.

Lemma keeps_bind {A B : Type} (m : M A) (k : A -> M B) :
  keeps_frame m -> (forall x, keeps_frame (k x)) -> keeps_frame (bind m k).
Proof.
  intros Hm Hk a. unfold bind. specialize (Hm a).
  destruct (m a) as [[x|e] s']; cbn [snd] in *; [|assumption].
  now rewrite Hk.
Qed.

Lemma keeps_try {A : Type} (body : M A) (handler : exn -> option (M A)) :
  keeps_frame body ->
  (forall e h, handler e = Some h -> keeps_frame h) ->
  keeps_frame (try_except body handler).
Proof.
  intros Hb Hh a. unfold try_except. specialize (Hb a).
  destruct (body a) as [[x|e] s']; cbn [snd] in *; [assumption|].
  destruct (handler e) as [h|] eqn:E; [|assumption].
  now rewrite (Hh e h E).
Qed.

Lemma keeps_tree_insert (i : nat) (iid : Z) (v : tree_values) :
  keeps_frame (tree_insert i iid v).
Proof.
  intros a. unfold tree_insert, bind, get_home, lift, put_home.
  destruct (has_item _ _); reflexivity.
Qed.

Lemma keeps_tree_delete (iid : Z) : keeps_frame (tree_delete iid).
Proof.
  intros a. unfold tree_delete, bind, get_home, lift, put_home.
  destruct (has_item _ _); reflexivity.
Qed.

Lemma keeps_for_each {A : Type} (body : A -> M unit) (l : list A) :
  (forall x, keeps_frame (body x)) -> keeps_frame (for_each body l).
Proof.
  intros Hb. induction l as [|x l IH]; simpl.
  - apply keeps_ret.
  - apply keeps_bind; auto.
Qed.

#[local] Hint Resolve keeps_ret keeps_lift keeps_get_files keeps_get_home
  keeps_put_files keeps_tree_insert keeps_tree_delete : frame.

Ltac frame_steps :=
  repeat first
    [ solve [auto with frame]
    | progress cbv zeta
    | match goal with |- keeps_frame (if ?b then _ else _) => destruct b end
    | apply keeps_for_each; intros ?
    | apply keeps_bind; [|intros ?] ].

Lemma keeps_populate_tree (userid : string) : keeps_frame (populate_tree userid).
Proof. unfold populate_tree. frame_steps. Qed.

Lemma keeps_update_shift_entry_table date s e h :
  keeps_frame (update_shift_entry_table date s e h).
Proof. unfold update_shift_entry_table. frame_steps. Qed.

#[local] Hint Resolve keeps_populate_tree keeps_update_shift_entry_table : frame.

Lemma keeps_login_user (userid : string) : keeps_frame (login_user userid).
Proof. unfold login_user. frame_steps. Qed.

Lemma keeps_log_out_user : keeps_frame log_out_user.
Proof. intros a. reflexivity. Qed.

Lemma keeps_create_user (name surname userid : string) :
  keeps_frame (create_user name surname userid).
Proof. unfold create_user. frame_steps. Qed.

Lemma keeps_add_button_action (username y m d f t : string) :
  keeps_frame (add_button_action username y m d f t).
Proof.
  unfold add_button_action. apply keeps_try.
  - frame_steps.
  - intros e h H. destruct e; inversion H; auto with frame.
Qed.

(** Whatever dtype is chosen, a column is read word by word. *)
Lemma infer_column_map (col : list string) :
  exists f, Pandas.infer_column finite_double col = map f col.
Proof.
  unfold Pandas.infer_column, Pandas.other_dtypes.
  repeat match goal with
         | |- context [match ?b with _ => _ end] => destruct b
         end; eauto.
Qed.

Lemma infer_column_length (col : list string) :
  List.length (Pandas.infer_column finite_double col) = List.length col.
Proof.
  destruct (infer_column_map col) as [f ->]. apply length_map.
Qed.

Lemma range_index_length {R : Type} (rows : list R) :
  List.length (Pandas.range_index rows) = List.length rows.
Proof.
  unfold Pandas.range_index.
  rewrite length_combine, length_map, length_seq. apply Nat.min_id.
Qed.

Lemma read_shifts_length (f : list shift_line) :
  List.length (read_shifts f) = List.length f.
Proof.
  unfold read_shifts.
  rewrite range_index_length, length_map, length_combine, infer_column_length, length_map.
  apply Nat.min_id.
Qed.

Lemma write_shifts_length (df : Pandas.frame shift_row) :
  List.length (write_shifts df) = List.length df.
Proof. unfold write_shifts, Pandas.rows_of. now rewrite !length_map. Qed.

Lemma filter_twice {A : Type} (p q : A -> bool) (l : list A) :
  filter p (filter q l) = filter (fun x => q x && p x) l.
Proof.
  induction l as [|x l IH]; simpl; [reflexivity|].
  destruct (q x); simpl; [destruct (p x)|]; now rewrite IH.
Qed.

Lemma less_rows_none {R : Type} (df : Pandas.frame R) : less_rows df [] = df.
Proof.
  unfold less_rows. apply forallb_filter_id. apply forallb_forall. reflexivity.
Qed.

Lemma less_rows_more {R : Type} (df : Pandas.frame R) (gone more : list Z) :
  less_rows (less_rows df gone) more = less_rows df (gone ++ more).
Proof.
  unfold less_rows. rewrite filter_twice. apply filter_ext. intros p.
  now rewrite existsb_app, negb_orb.
Qed.

(** Dropping a label the frame does not hold leaves it as it is. *)
Lemma less_rows_absent {R : Type} (df : Pandas.frame R) (k : Z) :
  Pandas.has_label df k = false -> less_rows df [k] = df.
Proof.
  intros H. unfold less_rows. apply forallb_filter_id. apply forallb_forall.
  intros p I. cbn [existsb]. rewrite orb_false_r.
  unfold Pandas.has_label in H.
  destruct (Z.eqb_spec (fst p) k) as [E|]; [|reflexivity].
  assert (T : existsb (fun q => fst q =? k) df = true).
  { apply existsb_exists. exists p. split; [assumption|now apply Z.eqb_eq]. }
  now rewrite T in H.
Qed.

Lemma drop_is_less_rows {R : Type} (df : Pandas.frame R) (k : Z) :
  filter (fun p => negb (fst p =? k)) df = less_rows df [k].
Proof.
  unfold less_rows. apply filter_ext. intros p. cbn [existsb]. now rewrite orb_false_r.
Qed.

(** [delete_selected_entry], step by step.  With nothing selected, or with
    an item the tree holds, it returns and writes the frame of the view,
    which has lost the rows under the label of the first selected item;
    with an item the tree does not hold the [TclError] leaves the callback
    and nothing is written. *)
Lemma delete_selected_entry_steps (selection : list Z) (a : app) :
  let r := delete_selected_entry selection a in
  hv_shift_db (home (snd r)) =
    less_rows (hv_shift_db (home a)) (deleted_items [Delete selection] a) /\
  (match selection with
   | k :: _ => has_item (tv_shift_table (home a)) k = true
   | [] => True
   end ->
   (exists printed, fst r = Ok printed) /\
   files (snd r) = updated_shift_db (files a) (hv_shift_db (home (snd r))) /\
   deleted_items [Delete selection] a = firstn 1 selection /\
   (selection = [] -> fst r = Ok No_entry_selected)).
Proof.
  destruct selection as [|k rest]; cbv zeta; cbn [deleted_items List.app firstn];
    cbv [delete_selected_entry try_except bind lift tree_delete get_home
         put_home get_files put_files ret Pandas.drop PyStr.index nth_error];
    cbn [home files fst snd hv_shift_db tv_shift_table].
  - rewrite less_rows_none. repeat split; eauto.
  - destruct (has_item (tv_shift_table (home a)) k) eqn:Hk;
      cbn [home files fst snd hv_shift_db tv_shift_table List.app].
    + destruct (Pandas.has_label (hv_shift_db (home a)) k) eqn:Hl;
        cbn [home files fst snd hv_shift_db tv_shift_table].
      * rewrite drop_is_less_rows. repeat split; eauto; discriminate.
      * rewrite (less_rows_absent _ _ Hl). repeat split; eauto; discriminate.
    + rewrite less_rows_none. split; [reflexivity|discriminate].
Qed.

(** Each callback leaves in the view the frame it held, less the rows under
    the items it deleted from the tree. *)
Lemma handle_less_rows (ev : event) (a : app) :
  hv_shift_db (home (handle ev a)) =
  less_rows (hv_shift_db (home a)) (deleted_items [ev] a).
Proof.
  destruct ev as [n s u|u| |u y m d f t|selection]; cbn [handle].
  - cbn [deleted_items List.app]. now rewrite less_rows_none, keeps_create_user.
  - cbn [deleted_items List.app]. now rewrite less_rows_none, keeps_login_user.
  - cbn [deleted_items List.app]. now rewrite less_rows_none, keeps_log_out_user.
  - cbn [deleted_items List.app]. now rewrite less_rows_none, keeps_add_button_action.
  - apply (delete_selected_entry_steps selection a).
Qed.

Lemma deleted_items_first (ev : event) (evs : list event) (a : app) :
  deleted_items (ev :: evs) a =
  (deleted_items [ev] a ++ deleted_items evs (handle ev a))%list.
Proof. cbn [deleted_items]. now rewrite app_nil_r. Qed.

(** Whatever the user does, the frame of the home view is the one read when
    the application started, less the rows under the items deleted from
    the tree since: no other row leaves it and none is ever added. *)
Lemma mainloop_less_rows (st0 : store) (evs : list event) :
  hv_shift_db (home (mainloop evs (start_app st0))) =
  less_rows (read_shifts (shift_db st0)) (deleted_items evs (start_app st0)).
Proof.
  assert (G : forall a, hv_shift_db (home (mainloop evs a)) =
                        less_rows (hv_shift_db (home a)) (deleted_items evs a)).
  { induction evs as [|ev evs IH]; intros a.
    - cbn [mainloop fold_left deleted_items]. now rewrite less_rows_none.
    - rewrite deleted_items_first, <- less_rows_more, <- handle_less_rows.
      apply (IH (handle ev a)). }
  rewrite G. reflexivity.
Qed.

(** C9.  After any sequence of user actions, [delete_selected_entry] on a
    selection of the tree returns normally and leaves as shift file the
    frame of the home view written out.  That frame is exactly the one
    read when the view was built, less the rows under the items deleted
    through the view, the one deleted now included: no line appended to
    the file since is in it, and the file has at most as many lines as it
    had then.  This also holds with nothing selected, where the frame is
    written as it stands. *)
Theorem C9_delete_rewrites_the_snapshot :
  forall (st0 : store) (evs : list event) (selection : list Z),
    let a := mainloop evs (start_app st0) in
    incl selection (map fst (tv_shift_table (home a))) ->
    let r := delete_selected_entry selection a in
    let gone := (deleted_items evs (start_app st0) ++ firstn 1 selection)%list in
    (exists printed, fst r = Ok printed) /\
    hv_shift_db (home (snd r)) = less_rows (HomeView_init st0).(hv_shift_db) gone /\
    shift_db (files (snd r)) =
      write_shifts (less_rows (read_shifts (shift_db st0)) gone) /\
    (List.length (shift_db (files (snd r))) <= List.length (shift_db st0))%nat /\
    (selection = [] ->
     fst r = Ok No_entry_selected /\
     shift_db (files (snd r)) = write_shifts (hv_shift_db (home a))).
Proof.
  intros st0 evs selection a Hsel r gone.
  destruct (delete_selected_entry_steps selection a) as (Hframe & Hrest).
  destruct Hrest as (Hret & Hfile & Hgone & Hnone).
  { destruct selection as [|k rest]; [exact I|].
    unfold has_item. apply existsb_exists.
    assert (J : In k (map fst (tv_shift_table (home a)))) by (apply Hsel; now left).
    apply in_map_iff in J as (p & <- & Hp). exists p. split; [assumption|apply Z.eqb_refl]. }
  fold r in Hret, Hfile, Hframe, Hnone.
  assert (F : hv_shift_db (home (snd r)) = less_rows (read_shifts (shift_db st0)) gone).
  { rewrite Hframe, Hgone. unfold a. rewrite mainloop_less_rows. apply less_rows_more. }
  assert (Hw : shift_db (files (snd r)) = write_shifts (hv_shift_db (home (snd r)))).
  { rewrite Hfile. reflexivity. }
  split; [exact Hret|]. split; [exact F|]. split; [now rewrite Hw, F|]. split.
  - rewrite Hw, write_shifts_length, F.
    rewrite <- (read_shifts_length (shift_db st0)). apply filter_length_le.
  - intros E. split; [now apply Hnone|].
    rewrite Hw, Hframe, Hgone, E. cbn [firstn]. now rewrite less_rows_none.
Qed.

(** ** User ids that [read_csv] leaves as text *)

Lemma plain_text_examples :
  Pandas.plain_text finite_double "ann" = true /\
  Pandas.plain_text finite_double "A-17" = true /\
  Pandas.plain_text finite_double "1e400" = true /\
  Pandas.plain_text finite_double "123" = false /\
  Pandas.plain_text finite_double " 42 " = false /\
  Pandas.plain_text finite_double "1e3" = false /\
  Pandas.plain_text finite_double "NA" = false /\
  Pandas.plain_text finite_double "True" = false /\
  Pandas.plain_text finite_double "tRUE" = false.
Proof. repeat split; reflexivity. Qed.

Lemma forallb_refuted {A : Type} (f : A -> bool) (l : list A) (x : A) :
  In x l -> f x = false -> forallb f l = false.
Proof.
  intros I F. destruct (forallb f l) eqn:E; [|reflexivity].
  rewrite forallb_forall in E. now rewrite (E x I) in F.
Qed.

(** What the int64 converter reads, [int_literal] reads. *)
Lemma to_int64_number (s : string) (z : Z) :
  Pandas.to_int64 s = Pandas.Number z ->
  Pandas.int_literal s = Some z /\ Pandas.in_int64 z = true.
Proof.
  unfold Pandas.to_int64, Pandas.int_literal.
  destruct (Pandas.read_sign _) as [neg l].
  destruct (Pandas.read_digits 0 0 l) as [[v n] rest].
  destruct n as [|n]; [discriminate|].
  destruct (Pandas.in_int64 _) eqn:R; [|discriminate].
  destruct (Pandas.skip_spaces rest); [|discriminate].
  intros H. injection H as <-. now split.
Qed.

Lemma to_int64_of_literal (s : string) (z : Z) :
  Pandas.int_literal s = Some z -> Pandas.in_int64 z = true ->
  Pandas.to_int64 s = Pandas.Number z.
Proof.
  unfold Pandas.to_int64, Pandas.int_literal.
  destruct (Pandas.read_sign _) as [neg l].
  destruct (Pandas.read_digits 0 0 l) as [[v n] rest].
  destruct n as [|n]; [discriminate|].
  destruct (Pandas.skip_spaces rest); [|discriminate].
  intros H R. injection H as <-. now rewrite R.
Qed.

Lemma to_int64_signs (s : string) : Pandas.to_int64 s <> Pandas.Negative.
Proof.
  unfold Pandas.to_int64.
  destruct (Pandas.read_sign _) as [neg l].
  destruct (Pandas.read_digits 0 0 l) as [[v n] rest].
  destruct n as [|n]; [discriminate|].
  destruct (Pandas.in_int64 _); [|discriminate].
  destruct (Pandas.skip_spaces rest); discriminate.
Qed.

Lemma to_uint64_number (s : string) (z : Z) :
  Pandas.to_uint64 s = Pandas.Number z -> Pandas.int_literal s = Some z.
Proof.
  unfold Pandas.to_uint64, Pandas.int_literal.
  destruct (Pandas.read_sign _) as [neg l].
  destruct neg; [discriminate|].
  destruct (Pandas.read_digits 0 0 l) as [[v n] rest].
  destruct n as [|n]; [discriminate|].
  destruct (Pandas.in_uint64 _); [|discriminate].
  destruct (Pandas.skip_spaces rest); [|discriminate].
  intros H. injection H as <-. reflexivity.
Qed.

(** A scan that reads the column refused none of its words. *)
Lemma scan_column_read (read : string -> Pandas.reading) (words : list string) :
  Pandas.scan_column read words = Pandas.Read ->
  forall w, In w words -> read w <> Pandas.Overflow /\ read w <> Pandas.Invalid.
Proof.
  induction words as [|x words IH]; simpl; [intros _ w []|].
  intros H w [->|I].
  - destruct (read w); try discriminate; split; discriminate.
  - destruct (read x); try discriminate; now apply IH.
Qed.

Lemma scan_column_all (read : string -> Pandas.reading) (words : list string) :
  (forall w, In w words -> read w <> Pandas.Overflow /\ read w <> Pandas.Invalid) ->
  Pandas.scan_column read words = Pandas.Read.
Proof.
  induction words as [|x words IH]; simpl; [reflexivity|].
  intros H. destruct (H x (or_introl eq_refl)) as [H1 H2].
  destruct (read x); [ | | now elim H1 | now elim H2 ];
    apply IH; intros w I; apply H; now right.
Qed.

Lemma other_dtypes_plain (col : list string) (s : string) :
  In s col -> Pandas.plain_text finite_double s = true ->
  Pandas.other_dtypes finite_double col = map (Pandas.or_nan Pandas.Str) col.
Proof.
  intros I P. unfold Pandas.plain_text in P.
  repeat rewrite andb_true_iff in P. destruct P as [[[Pna Pint] Pfloat] Pbool].
  rewrite negb_true_iff in Pna, Pint, Pfloat, Pbool.
  assert (W : In s (filter (fun w => negb (Pandas.is_na w)) col)).
  { apply filter_In. split; [assumption|now rewrite Pna]. }
  unfold Pandas.other_dtypes.
  rewrite (forallb_refuted _ _ s W Pfloat).
  rewrite (forallb_refuted _ _ s W Pbool).
  reflexivity.
Qed.

(** One plain word makes the column an object column: its words stay as
    they are, but for the missing ones, which are missing cells unless the
    uint64 conversion gave up on the column. *)
Lemma infer_column_plain (col : list string) (s : string) :
  In s col -> Pandas.plain_text finite_double s = true ->
  Pandas.infer_column finite_double col = map (Pandas.or_nan Pandas.Str) col \/
  Pandas.infer_column finite_double col = map Pandas.Str col.
Proof.
  intros I P. pose proof (other_dtypes_plain col s I P) as O.
  unfold Pandas.plain_text in P.
  repeat rewrite andb_true_iff in P. destruct P as [[[Pna Pint] _] _].
  rewrite negb_true_iff in Pna, Pint.
  assert (W : In s (filter (fun w => negb (Pandas.is_na w)) col)).
  { apply filter_In. split; [assumption|now rewrite Pna]. }
  assert (N : forall z, Pandas.int_literal s <> Some z).
  { intros z E. now rewrite E in Pint. }
  unfold Pandas.infer_column.
  destruct (Pandas.scan_column Pandas.to_int64 _) eqn:S1.
  - exfalso. destruct (scan_column_read _ _ S1 s W) as [H1 H2].
    destruct (Pandas.to_int64 s) as [z| | |] eqn:E;
      [ | | now apply H1 | now apply H2 ].
    + apply to_int64_number in E as [E _]. now apply (N z).
    + now apply (to_int64_signs s).
  - destruct (Pandas.scan_column Pandas.to_uint64 _) eqn:S2.
    + destruct (scan_column_read _ _ S2 s W) as [H1 H2].
      destruct (Pandas.to_uint64 s) as [z| | |] eqn:E;
        [ | | exfalso; now apply H1 | exfalso; now apply H2 ].
      * exfalso. apply to_uint64_number in E. now apply (N z).
      * assert (T : Pandas.seen_sint (filter (fun w => negb (Pandas.is_na w)) col) = true).
        { unfold Pandas.seen_sint. apply existsb_exists. exists s. now rewrite E. }
        rewrite T. cbn [orb]. rewrite andb_true_r.
        destruct (Pandas.seen_uint _); [now right|now left].
    + now left.
    + left. exact O.
  - left. exact O.
Qed.

Lemma plain_is_not_missing (s : string) :
  Pandas.plain_text finite_double s = true -> Pandas.is_na s = false.
Proof.
  unfold Pandas.plain_text. intros P.
  destruct (Pandas.is_na s); [discriminate P|reflexivity].
Qed.

Lemma plain_cell (s : string) :
  Pandas.plain_text finite_double s = true -> Pandas.or_nan Pandas.Str s = Pandas.Str s.
Proof.
  intros P. unfold Pandas.or_nan. now rewrite (plain_is_not_missing s P).
Qed.

Lemma map_snd_combine {A B : Type} (l : list A) (l' : list B) :
  List.length l = List.length l' -> map snd (combine l l') = l'.
Proof.
  revert l'. induction l as [|x l IH]; intros [|y l'] H; simpl in *;
    try discriminate; [reflexivity|].
  f_equal. apply IH. now injection H.
Qed.

Lemma combine_append {A B : Type} (l1 l2 : list A) (k1 k2 : list B) :
  List.length l1 = List.length k1 ->
  combine (l1 ++ l2) (k1 ++ k2) = (combine l1 k1 ++ combine l2 k2)%list.
Proof.
  revert k1. induction l1 as [|x l1 IH]; intros [|y k1] H; simpl in *;
    try discriminate; [reflexivity|].
  f_equal. apply IH. now injection H.
Qed.

Lemma rows_of_range_index {R : Type} (rows : list R) :
  Pandas.rows_of (Pandas.range_index rows) = rows.
Proof.
  unfold Pandas.rows_of, Pandas.range_index.
  apply map_snd_combine. now rewrite length_map, length_seq.
Qed.

Lemma range_index_append {R : Type} (rows : list R) (r : R) :
  Pandas.range_index (rows ++ [r]) =
  (Pandas.range_index rows ++ [(Z.of_nat (List.length rows), r)])%list.
Proof.
  unfold Pandas.range_index.
  rewrite length_app, Nat.add_1_r, seq_S, map_app.
  rewrite combine_append by now rewrite length_map, length_seq.
  reflexivity.
Qed.

(** The User id cells of the users frame are the inferred User id column. *)
Lemma user_ids_of_read_users (f : list user_line) :
  map user_id_cell (Pandas.rows_of (read_users f)) =
  Pandas.infer_column finite_double (map User_id f).
Proof.
  unfold read_users. rewrite rows_of_range_index, map_map. cbn [user_id_cell].
  apply map_snd_combine.
  now rewrite length_combine, !infer_column_length, !length_map, Nat.min_id.
Qed.

Lemma user_ids_after_save (st : store) (name surname userid : string) :
  In userid (map User_id (users_db (save_to_userList st name surname userid))).
Proof.
  unfold save_to_userList, write_users, Pandas.append. cbn [users_db].
  rewrite rows_of_range_index, map_map, map_app. cbn [map User_id Pandas.render].
  apply in_or_app. right. now left.
Qed.

(** What C3 asks for holds for an id that is plain text: once saved it is
    found, whatever the users file held. *)
Lemma plain_id_found_after_registration (st : store) (name surname userid : string) :
  Pandas.plain_text finite_double userid = true ->
  check_if_userid_exists (save_to_userList st name surname userid) userid = true.
Proof.
  intros P. unfold check_if_userid_exists.
  rewrite user_ids_of_read_users.
  pose proof (user_ids_after_save st name surname userid) as I.
  assert (C : Pandas.contains
                (Pandas.infer_column finite_double
                   (map User_id (users_db (save_to_userList st name surname userid))))
                userid = true).
  { unfold Pandas.contains. apply existsb_exists.
    exists (Pandas.Str userid). split; [|apply String.eqb_refl].
    destruct (infer_column_plain _ userid I P) as [-> | ->];
      apply in_map_iff; exists userid; split;
      solve [now apply plain_cell | reflexivity | assumption]. }
  now rewrite C.
Qed.

(** What C4 asks for holds for an id that is found: [create_user] with
    filled boxes refuses it and changes nothing. *)
Lemma found_id_is_refused (name surname userid : string) (a : app) :
  name <> "" -> surname <> "" -> userid <> "" ->
  check_if_userid_exists (files a) userid = true ->
  create_user name surname userid a = (Ok User_ID_already_exists, a).
Proof.
  intros Hn Hs Hu C. unfold create_user, bind, get_files, ret.
  apply String.eqb_neq in Hn, Hs, Hu. rewrite Hn, Hs, Hu, C. reflexivity.
Qed.

Lemma shift_ids_of_read_shifts (f : list shift_line) :
  map sh_user_id (Pandas.rows_of (read_shifts f)) =
  Pandas.infer_column finite_double (map line_user_id f).
Proof.
  unfold read_shifts. rewrite rows_of_range_index, map_map. cbn [sh_user_id].
  change (fun x : Pandas.cell * shift_line => fst x) with (@fst Pandas.cell shift_line).
  revert f. intros f.
  assert (L : List.length (Pandas.infer_column finite_double (map line_user_id f)) = List.length f)
    by now rewrite infer_column_length, length_map.
  revert L. generalize (Pandas.infer_column finite_double (map line_user_id f)) as cells.
  induction f as [|x f IH]; intros [|c cells] L; simpl in *; try discriminate;
    [reflexivity|].
  f_equal. apply IH. now injection L.
Qed.

(** What C5 asks for holds for a user id that is plain text: the shift
    added last is listed for that user, under the label of the last line,
    with the fields it was added with. *)
Lemma shift_of_plain_id_listed (st : store) (userid : string)
      (date : Datetime.date) (s e : Datetime.time) (hours : Z) :
  Pandas.plain_text finite_double userid = true ->
  In (Z.of_nat (List.length (shift_db st)), mkshift_row (Pandas.Str userid) date s e hours)
     (get_user_specific_entry (add_entry_to_shift_db st userid date s e hours) userid).
Proof.
  intros P. unfold get_user_specific_entry. apply filter_In. split.
  2:{ cbn [snd sh_user_id Pandas.eq_str]. apply String.eqb_refl. }
  unfold add_entry_to_shift_db, updated_shift_db, write_shifts, Pandas.append.
  cbn [shift_db]. rewrite rows_of_range_index.
  set (old := Pandas.rows_of (read_shifts (shift_db st))).
  assert (Lold : List.length old = List.length (shift_db st)).
  { unfold old, Pandas.rows_of. now rewrite length_map, read_shifts_length. }
  rewrite map_app. cbn [map]. unfold read_shifts.
  rewrite !map_app. cbn [map line_user_id Pandas.render].
  cbn [sh_user_id Pandas.render].
  set (ids := map line_user_id (map _ old)).
  assert (I : In userid (ids ++ [userid])) by (apply in_or_app; right; now left).
  assert (C : exists f, f userid = Pandas.Str userid /\
                Pandas.infer_column finite_double (ids ++ [userid]) = map f (ids ++ [userid])).
  { destruct (infer_column_plain _ userid I P) as [-> | ->].
    - exists (Pandas.or_nan Pandas.Str). split; [now apply plain_cell|reflexivity].
    - exists Pandas.Str. split; reflexivity. }
  destruct C as (f & Fu & ->). rewrite map_app. cbn [map]. rewrite Fu.
  rewrite combine_append by (unfold ids; now rewrite !length_map).
  rewrite map_app. cbn [combine map fst snd line_date line_start line_end line_hours
                        sh_date sh_start_time sh_end_time sh_no_of_hours].
  rewrite range_index_append. apply in_or_app. right. left.
  unfold ids. rewrite length_map, length_combine, !length_map, Nat.min_id, Lold. reflexivity.
Qed.

(** A shift added after the home view was built is lost by the next
    click on Delete, even with nothing selected. *)
Lemma added_shift_is_lost_on_delete :
  let a1 := mainloop [Add "ann" "2024" "3" "1" "09:00" "17:30"] (start_app empty_store) in
  shift_db (files a1) = [mkshift_line "ann" march_1st (clock 9 0) (clock 17 30) 850] /\
  delete_selected_entry [] a1 =
  (Ok No_entry_selected, mkapp empty_store (home a1)).
Proof. vm_compute. split; reflexivity. Qed.

(** ** Where the code departs from the claims *)

(** C3 (at the failing input).  On a users file with no line yet, the id
    "123" is saved by [save_to_userList]; [read_csv] then reads the User id
    column as the integer 123 and [check_if_userid_exists "123"] answers
    [false].  The same steps with the id "ann" answer [true]. *)
Theorem C3_numeric_id_not_found_after_registration :
  let st := save_to_userList empty_store "Ann" "Lee" "123" in
  check_if_userid_exists empty_store "123" = false /\
  users_db st = [mkuser_line "Ann" "Lee" "123"] /\
  map user_id_cell (Pandas.rows_of (read_users (users_db st))) = [Pandas.Int 123] /\
  check_if_userid_exists st "123" = false /\
  check_if_userid_exists (save_to_userList empty_store "Ann" "Lee" "ann") "ann" = true.
Proof. vm_compute. repeat split; reflexivity. Qed.

(** C4 (at the failing input).  Registering the id "123" a second time
    through [create_user] is not refused: both calls report the account
    created and the users file ends with two lines for "123". *)
Theorem C4_numeric_id_registered_twice :
  let r1 := create_user "Ann" "Lee" "123" (start_app empty_store) in
  let r2 := create_user "Bob" "Ray" "123" (snd r1) in
  fst r1 = Ok Account_created /\
  users_db (files (snd r1)) = [mkuser_line "Ann" "Lee" "123"] /\
  fst r2 = Ok Account_created /\
  users_db (files (snd r2)) =
    [mkuser_line "Ann" "Lee" "123"; mkuser_line "Bob" "Ray" "123"].
Proof. vm_compute. repeat split; reflexivity. Qed.

(** C5 (at the failing input).  A shift added for the user id "123" to a
    shift file with no line yet is written, and [get_user_specific_entry
    "123"] returns the empty list.  The same happens in a session where
    "123" has registered after "ann", has logged in and has added the shift
    through the form. *)
Theorem C5_shift_of_numeric_id_not_listed :
  let st := add_entry_to_shift_db empty_store "123" march_1st (clock 9 0) (clock 17 30) 850 in
  let a := mainloop [Create "Ann" "Lee" "ann"; Create "Bob" "Ray" "123";
                     Login "123"; Add "123" "2024" "3" "1" "09:00" "17:30"]
                    (start_app empty_store) in
  shift_db st = [mkshift_line "123" march_1st (clock 9 0) (clock 17 30) 850] /\
  get_user_specific_entry st "123" = [] /\
  shift_db (files a) = [mkshift_line "123" march_1st (clock 9 0) (clock 17 30) 850] /\
  get_user_specific_entry (files a) "123" = [].
Proof. vm_compute. repeat split; reflexivity. Qed.

(** C6 (at the failing input).  The shift file holds one shift of alice,
    then one of bob.  Bob logs in, selects his only entry (item 0 of the
    tree) and clicks Delete: the row labelled 0 of the frame, alice's, is
    dropped.  Bob's shift is still listed and alice's list is empty. *)
Theorem C6_delete_drops_the_row_of_another_user :
  let alice_row := mkshift_row (Pandas.Str "alice") march_1st (clock 9 0) (clock 17 0) 800 in
  let bob_row := mkshift_row (Pandas.Str "bob") march_2nd (clock 10 0) (clock 12 0) 200 in
  let a1 := mainloop [Login "bob"] (start_app two_users_store) in
  let r := delete_selected_entry [0] a1 in
  tv_shift_table (home a1) = [(0, (march_2nd, clock 10 0, clock 12 0, 200))] /\
  get_user_specific_entry (files a1) "bob" = [(1, bob_row)] /\
  get_user_specific_entry (files a1) "alice" = [(0, alice_row)] /\
  fst r = Ok Nothing /\
  shift_db (files (snd r)) = [mkshift_line "bob" march_2nd (clock 10 0) (clock 12 0) 200] /\
  get_user_specific_entry (files (snd r)) "bob" = [(0, bob_row)] /\
  get_user_specific_entry (files (snd r)) "alice" = [].
Proof. vm_compute. repeat split; reflexivity. Qed.

(** * Further properties of the code *)

(** ** The hours of a shift *)

(** X1.  For two valid clock times the hours are at least 0 and below 24,
    they are 0 when both times are the same, and they do not depend on the
    date. *)
Theorem hours_between_valid_times :
  forall d d' sh sm eh em s e,
    Datetime.new_time sh sm = Ok s -> Datetime.new_time eh em = Ok e ->
    0 <= no_of_hours d s e < 2400 /\
    (Datetime.minutes_of_day e = Datetime.minutes_of_day s -> no_of_hours d s e = 0) /\
    no_of_hours d' s e = no_of_hours d s e.
Proof.
  intros d d' sh sm eh em s e Hs He.
  unfold no_of_hours.
  rewrite (seconds_between d sh sm eh em s e Hs He).
  rewrite (seconds_between d' sh sm eh em s e Hs He).
  rewrite round_hours_of_minutes.
  set (delta := Datetime.minutes_of_day e - Datetime.minutes_of_day s).
  pose proof (Z.mod_pos_bound delta 1440 ltac:(lia)) as B.
  split; [|split; [|reflexivity]].
  - destruct (Z.eq_dec (delta mod 1440) 0) as [->|N].
    + vm_compute. split; [discriminate|reflexivity].
    + pose proof (hours_of_minutes_bounds (delta mod 1440) ltac:(lia)). lia.
  - intros E. unfold delta. rewrite E, Z.sub_diag. reflexivity.
Qed.

(** ** The key filter of the date boxes *)

Lemma digit_not_space (c : ascii) :
  PyStr.is_digit c = true -> PyStr.is_space c = false.
Proof.
  unfold PyStr.is_digit, PyStr.is_space. intros H.
  apply andb_true_iff in H as [H1 H2]. apply Z.leb_le in H1, H2.
  apply orb_false_iff. split.
  - apply andb_false_iff. right. apply Z.leb_gt. lia.
  - apply Z.eqb_neq. lia.
Qed.

Lemma count_digits_le_length (l : list ascii) :
  PyStr.count_digits l <= Z.of_nat (List.length l).
Proof.
  unfold PyStr.count_digits. apply Nat2Z.inj_le, filter_length_le.
Qed.

Lemma length_as_list (s : string) :
  List.length (list_ascii_of_string s) = String.length s.
Proof. induction s as [|c s IH]; simpl; [reflexivity|now rewrite IH]. Qed.

Lemma lstrip_digits (l : list ascii) :
  forallb PyStr.is_digit l = true -> PyStr.lstrip l = l.
Proof.
  destruct l as [|c t]; [reflexivity|]. simpl. intros H.
  apply andb_true_iff in H as [H _]. now rewrite (digit_not_space c H).
Qed.

Lemma strip_digits (l : list ascii) :
  forallb PyStr.is_digit l = true -> PyStr.strip l = l.
Proof.
  intros H. unfold PyStr.strip. rewrite (lstrip_digits l H).
  rewrite lstrip_digits; [apply rev_involutive|].
  apply forallb_forall. intros c I. apply in_rev in I.
  rewrite forallb_forall in H. auto.
Qed.

Lemma digits_of_digits (l : list ascii) :
  forallb PyStr.is_digit l = true ->
  forall acc after, 0 <= acc -> l <> [] \/ after = true ->
    exists z, PyStr.digits acc after l = Some z /\ 0 <= z.
Proof.
  induction l as [|c l IH]; intros H acc after Hacc Hne.
  - destruct Hne as [Hne| ->]; [congruence|]. exists acc. now split.
  - cbn [forallb] in H. apply andb_true_iff in H as [Hc Hl].
    cbn [PyStr.digits]. rewrite Hc.
    apply IH; [assumption| |now right].
    unfold PyStr.is_digit in Hc. apply andb_true_iff in Hc as [H1 _].
    apply Z.leb_le in H1. unfold PyStr.digit_value. lia.
Qed.

(** X2.  An insertion the filter of the date boxes lets through leaves text
    that [int] reads, as a number that is not negative.  (For ASCII text
    of at most 4300 characters, the length up to which [int] reads any
    run of digits.) *)
Theorem digits_filter_gives_an_int :
  forall s, is_ascii s = true -> (String.length s <= 4300)%nat ->
    only_digits_allowed s "1" = true ->
    exists z, PyStr.int s = Ok z /\ 0 <= z.
Proof.
  intros s _ L H. unfold only_digits_allowed in H. cbn [String.eqb Ascii.eqb Bool.eqb] in H.
  destruct (isdigit s) eqn:D; [|discriminate H]. clear H.
  destruct s as [|c s]; [discriminate D|]. unfold isdigit in D.
  unfold PyStr.int, PyStr.parse_int. rewrite (strip_digits _ D).
  pose proof (count_digits_le_length (list_ascii_of_string (String c s))) as K.
  rewrite length_as_list in K.
  cbn [list_ascii_of_string] in *.
  pose proof D as D'. cbn [forallb] in D'. apply andb_true_iff in D' as [Hc _].
  destruct (Ascii.eqb_spec c "+"%char) as [->|_]; [discriminate Hc|].
  destruct (Ascii.eqb_spec c "-"%char) as [->|_]; [discriminate Hc|].
  unfold PyStr.magnitude, PyStr.max_str_digits.
  replace (4300 <? PyStr.count_digits (c :: list_ascii_of_string s)) with false
    by (symmetry; apply Z.ltb_ge; lia).
  destruct (digits_of_digits _ D 0 false ltac:(lia) ltac:(left; discriminate))
    as (z & -> & Hz).
  exists z. now split.
Qed.

(** ** [add_button_action]: a time without a colon *)

Lemma entry_end_without_colon (t : string) :
  PyStr.has_char PyStr.colon t = false -> entry_end t = Raise IndexError.
Proof.
  intros H. unfold entry_end. now rewrite (split_without_sep _ _ H).
Qed.

(** X3.  With a date and a start time that parse, an end time without a colon
    makes [add_button_action] raise an [IndexError], which neither
    [except] clause takes: the exception leaves the callback, no message
    is set and the state is as it was. *)
Theorem end_time_without_colon_escapes :
  forall username y m d f t a date s,
    entry_date y m d = Ok date -> entry_start f = Ok s ->
    PyStr.has_char PyStr.colon t = false ->
    add_button_action username y m d f t a = (Raise IndexError, a).
Proof.
  intros username y m d f t a date s Hd Hs Ht.
  unfold add_button_action, try_except, bind, lift.
  now rewrite Hd, Hs, (entry_end_without_colon t Ht).
Qed.

(** ** What an added line looks like *)

Lemma render_text (s : string) : Pandas.render float_repr (Pandas.Str s) = s.
Proof. reflexivity. Qed.

Lemma add_entry_lines (st : store) (u : string) (date : Datetime.date)
      (s e : Datetime.time) (h : Z) :
  shift_db (add_entry_to_shift_db st u date s e h) =
  (write_shifts (read_shifts (shift_db st)) ++ [mkshift_line u date s e h])%list.
Proof.
  unfold add_entry_to_shift_db, updated_shift_db, write_shifts, Pandas.append.
  cbn [shift_db]. rewrite rows_of_range_index, map_app. reflexivity.
Qed.

Lemma insert_past_the_end {A : Type} (n : nat) (x : A) (l : list A) :
  (List.length l <= n)%nat -> (firstn n l ++ x :: skipn n l = l ++ [x])%list.
Proof.
  intros H. now rewrite firstn_all2, skipn_all2 by assumption.
Qed.

(** X4.  When the date and both times parse and the item id the tree view is
    asked for is free, [add_button_action] ends on the home page: the shift
    file has one more line, its last, which holds the user name, the date,
    the times and the hours; the tree view has one more item, numbered one
    past its previous size plus one; the frame of the home view is not
    refreshed. *)
Theorem add_button_action_appends :
  forall username y m d f t a date s e,
    entry_date y m d = Ok date -> entry_start f = Ok s -> entry_end t = Ok e ->
    has_item (tv_shift_table (home a))
             (Z.of_nat (S (List.length (tv_shift_table (home a))))) = false ->
    let h := no_of_hours date s e in
    let st := add_entry_to_shift_db (files a) username date s e h in
    add_button_action username y m d f t a =
    (Ok (Nothing, HomePage),
     mkapp st (mkHomeView (hv_shift_db (home a))
                 (tv_shift_table (home a) ++
                  [(Z.of_nat (S (List.length (tv_shift_table (home a)))), (date, s, e, h))]))) /\
    List.length (shift_db st) = S (List.length (shift_db (files a))) /\
    nth_error (shift_db st) (List.length (shift_db (files a))) =
    Some (mkshift_line username date s e h) /\
    users_db st = users_db (files a).
Proof.
  intros username y m d f t a date s e Hd Hs He Hfree h st. split.
  - unfold add_button_action, try_except, bind, lift. rewrite Hd, Hs, He.
    cbv [get_files put_files update_shift_entry_table tree_insert bind get_home lift
         put_home ret].
    cbn [home files fst snd hv_shift_db tv_shift_table].
    rewrite Hfree. fold h. fold st.
    rewrite insert_past_the_end by lia. reflexivity.
  - unfold st. rewrite add_entry_lines. repeat split.
    + rewrite length_app, write_shifts_length, read_shifts_length. simpl. lia.
    + rewrite nth_error_app2
        by (rewrite write_shifts_length, read_shifts_length; lia).
      rewrite write_shifts_length, read_shifts_length, Nat.sub_diag. reflexivity.
Qed.

(** X5.  When the item id the tree view is asked for is taken, the line is
    written to the shift file all the same, then [insert] raises a
    [TclError] that leaves the callback: the home page is not shown and the
    tree view does not show the new shift. *)
Theorem add_button_action_item_id_taken :
  forall username y m d f t a date s e,
    entry_date y m d = Ok date -> entry_start f = Ok s -> entry_end t = Ok e ->
    has_item (tv_shift_table (home a))
             (Z.of_nat (S (List.length (tv_shift_table (home a))))) = true ->
    add_button_action username y m d f t a =
    (Raise TclError,
     mkapp (add_entry_to_shift_db (files a) username date s e (no_of_hours date s e))
           (home a)).
Proof.
  intros username y m d f t a date s e Hd Hs He Htaken.
  unfold add_button_action, try_except, bind, lift. rewrite Hd, Hs, He.
  cbv [get_files put_files update_shift_entry_table tree_insert bind get_home lift
       put_home ret].
  cbn [home files fst snd hv_shift_db tv_shift_table].
  rewrite Htaken. reflexivity.
Qed.

(** ** Registration *)

Lemma read_users_length (f : list user_line) :
  List.length (read_users f) = List.length f.
Proof.
  unfold read_users.
  rewrite range_index_length, length_map, !length_combine, !infer_column_length, !length_map.
  now rewrite !Nat.min_id.
Qed.

Lemma users_after_save (st : store) (name surname userid : string) :
  users_db (save_to_userList st name surname userid) =
  (write_users (read_users (users_db st)) ++ [mkuser_line name surname userid])%list /\
  List.length (write_users (read_users (users_db st))) = List.length (users_db st).
Proof.
  split.
  - unfold save_to_userList, write_users, Pandas.append. cbn [users_db].
    rewrite rows_of_range_index, map_app. reflexivity.
  - unfold write_users, Pandas.rows_of. now rewrite !length_map, read_users_length.
Qed.

(** X6.  [save_to_userList] adds one line at the end of the users file, holding
    the name, the surname and the id as given, whether or not the id is on
    file already; the shift file is not touched. *)
Theorem save_to_userList_appends :
  forall st name surname userid,
    List.length (users_db (save_to_userList st name surname userid)) =
    S (List.length (users_db st)) /\
    nth_error (users_db (save_to_userList st name surname userid))
              (List.length (users_db st)) = Some (mkuser_line name surname userid) /\
    shift_db (save_to_userList st name surname userid) = shift_db st.
Proof.
  intros st name surname userid.
  destruct (users_after_save st name surname userid) as [E L].
  rewrite E. repeat split.
  - rewrite length_app, L. simpl. lia.
  - rewrite nth_error_app2 by lia. now rewrite L, Nat.sub_diag.
Qed.

(** X7.  [create_user] with an empty box only sets the message asking to fill
    the boxes.  Whatever the boxes hold, it never changes the shift file
    nor the home view. *)
Theorem create_user_scope :
  forall name surname userid a,
    (String.eqb name "" || String.eqb surname "" || String.eqb userid "" = true ->
     create_user name surname userid a = (Ok Fill_in_all_the_boxes, a)) /\
    shift_db (files (snd (create_user name surname userid a))) = shift_db (files a) /\
    home (snd (create_user name surname userid a)) = home a.
Proof.
  intros name surname userid a. unfold create_user, bind, get_files, put_files, ret.
  destruct (String.eqb name "" || String.eqb surname "" || String.eqb userid "").
  - repeat split.
  - split; [discriminate|].
    destruct (check_if_userid_exists (files a) userid); split; reflexivity.
Qed.

(** X8.  With the three boxes filled and an id that [check_if_userid_exists]
    does not find, [create_user] reports the account created; the users
    file has one more line, its last, which holds the name, the surname and
    the id as typed; the shift file and the home view are as they were. *)
Theorem create_user_registers :
  forall name surname userid a,
    name <> "" -> surname <> "" -> userid <> "" ->
    check_if_userid_exists (files a) userid = false ->
    let r := create_user name surname userid a in
    fst r = Ok Account_created /\
    List.length (users_db (files (snd r))) = S (List.length (users_db (files a))) /\
    nth_error (users_db (files (snd r))) (List.length (users_db (files a))) =
    Some (mkuser_line name surname userid) /\
    shift_db (files (snd r)) = shift_db (files a) /\
    home (snd r) = home a.
Proof.
  intros name surname userid a Hn Hs Hu C r.
  assert (E : r = (Ok Account_created,
                   mkapp (save_to_userList (files a) name surname userid) (home a))).
  { unfold r, create_user, bind, get_files, put_files, ret.
    apply String.eqb_neq in Hn, Hs, Hu. now rewrite Hn, Hs, Hu, C. }
  rewrite E. cbn [fst snd files home].
  destruct (users_after_save (files a) name surname userid) as [L N].
  rewrite L. repeat split.
  - rewrite length_app, N. simpl. lia.
  - rewrite nth_error_app2 by lia. now rewrite N, Nat.sub_diag.
Qed.

(** ** Logging in and the tree view *)

Lemma no_item_above (items : list (Z * tree_values)) (z : Z) :
  (forall p, In p items -> fst p < z) -> has_item items z = false.
Proof.
  intros H. unfold has_item. destruct (existsb _ items) eqn:E; [|reflexivity].
  apply existsb_exists in E as (p & I & Q). apply Z.eqb_eq in Q.
  specialize (H p I). lia.
Qed.

Lemma populate_from (rows : list shift_tuple) :
  forall k a,
    List.length (tv_shift_table (home a)) = k ->
    (forall p, In p (tv_shift_table (home a)) -> fst p < Z.of_nat k) ->
    for_each (fun p => tree_insert (fst p) (Z.of_nat (fst p)) (values_of (snd p)))
             (combine (seq k (List.length rows)) rows) a =
    (Ok tt,
     mkapp (files a)
           (mkHomeView (hv_shift_db (home a))
              (tv_shift_table (home a) ++
               map (fun p => (Z.of_nat (fst p), values_of (snd p)))
                   (combine (seq k (List.length rows)) rows)))).
Proof.
  induction rows as [|row rows IH]; intros k a Hlen Hids.
  - destruct a as [st [df items]]. cbn. now rewrite app_nil_r.
  - cbn [List.length seq combine for_each map fst snd].
    unfold bind at 1.
    assert (E : tree_insert k (Z.of_nat k) (values_of row) a =
                (Ok tt, mkapp (files a)
                          (mkHomeView (hv_shift_db (home a))
                             (tv_shift_table (home a) ++ [(Z.of_nat k, values_of row)])))).
    { cbv [tree_insert bind get_home lift put_home].
      rewrite (no_item_above _ _ Hids).
      rewrite insert_past_the_end by lia. reflexivity. }
    rewrite E. rewrite IH.
    + cbn [files home hv_shift_db tv_shift_table]. now rewrite <- app_assoc.
    + cbn [home tv_shift_table]. rewrite length_app, Hlen. simpl. lia.
    + cbn [home tv_shift_table]. intros p I. apply in_app_or in I as [I|[<-|[]]].
      * specialize (Hids p I). lia.
      * cbn [fst]. lia.
Qed.

Lemma populate_empty_tree (userid : string) (a : app) :
  tv_shift_table (home a) = [] ->
  populate_tree userid a =
  (Ok tt, mkapp (files a)
            (mkHomeView (hv_shift_db (home a))
               (items_of (get_user_specific_entry (files a) userid)))).
Proof.
  intros T. unfold populate_tree, bind, get_files.
  rewrite populate_from with (k := O).
  - rewrite T. reflexivity.
  - now rewrite T.
  - rewrite T. intros p [].
Qed.

(** X9.  [login_user] with an id that [check_if_userid_exists] does not find
    shows the error and changes nothing.  With an id it finds and an empty
    tree view, it shows the home page with one item for each shift
    [get_user_specific_entry] returns, in that order, numbered from 0; the
    files are as they were. *)
Theorem login_user_outcomes :
  forall userid a,
    (check_if_userid_exists (files a) userid = false ->
     login_user userid a = (Ok (Invalid_User_ID, LoginPage), a)) /\
    (check_if_userid_exists (files a) userid = true ->
     tv_shift_table (home a) = [] ->
     login_user userid a =
     (Ok (Nothing, HomePage),
      mkapp (files a)
            (mkHomeView (hv_shift_db (home a))
               (items_of (get_user_specific_entry (files a) userid))))).
Proof.
  intros userid a. split.
  - intros C. unfold login_user, bind, get_files, ret. now rewrite C.
  - intros C T. unfold login_user, bind at 1. unfold get_files at 1. rewrite C.
    cbn [negb]. unfold bind. now rewrite (populate_empty_tree userid a T).
Qed.

(** X10.  Logging out and in again, under an id that is found, shows exactly the
    shifts the file holds for that id at that moment, whatever the tree
    view showed before. *)
Theorem logout_then_login_refreshes :
  forall userid a,
    check_if_userid_exists (files a) userid = true ->
    login_user userid (snd (log_out_user a)) =
    (Ok (Nothing, HomePage),
     mkapp (files a)
           (mkHomeView (hv_shift_db (home a))
              (items_of (get_user_specific_entry (files a) userid)))).
Proof.
  intros userid a C.
  assert (E : snd (log_out_user a) = mkapp (files a) (mkHomeView (hv_shift_db (home a)) []))
    by reflexivity.
  rewrite E. unfold login_user, bind at 1. unfold get_files at 1.
  cbn [files fst snd]. rewrite C. cbn [negb]. unfold bind.
  now rewrite populate_empty_tree by reflexivity.
Qed.

(** ** Which callback writes which file *)

Lemma files_ret {A : Type} (x : A) : keeps_files (ret x).
Proof. intros a. reflexivity. Qed.

Lemma files_lift {A : Type} (r : result A) : keeps_files (lift r).
Proof. intros a. reflexivity. Qed.

Lemma files_get_files : keeps_files get_files.
Proof. intros a. reflexivity. Qed.

Lemma files_get_home : keeps_files get_home.
Proof. intros a. reflexivity. Qed.

Lemma files_put_home (hv : HomeView) : keeps_files (put_home hv).
Proof. intros a. reflexivity. Qed.

Lemma files_bind {A B : Type} (m : M A) (k : A -> M B) :
  keeps_files m -> (forall x, keeps_files (k x)) -> keeps_files (bind m k).
Proof.
  intros Hm Hk a. unfold bind. specialize (Hm a).
  destruct (m a) as [[x|e] s']; cbn [snd] in *; [|assumption].
  now rewrite Hk.
Qed.

Lemma files_tree_insert (i : nat) (iid : Z) (v : tree_values) :
  keeps_files (tree_insert i iid v).
Proof.
  intros a. unfold tree_insert, bind, get_home, lift, put_home.
  destruct (has_item _ _); reflexivity.
Qed.

Lemma files_for_each {A : Type} (body : A -> M unit) (l : list A) :
  (forall x, keeps_files (body x)) -> keeps_files (for_each body l).
Proof.
  intros Hb. induction l as [|x l IH]; simpl.
  - apply files_ret.
  - apply files_bind; auto.
Qed.

Lemma files_populate_tree (userid : string) : keeps_files (populate_tree userid).
Proof.
  unfold populate_tree. apply files_bind; [apply files_get_files|].
  intros st. apply files_for_each. intros p. apply files_tree_insert.
Qed.

Lemma files_login_user (userid : string) : keeps_files (login_user userid).
Proof.
  unfold login_user. apply files_bind; [apply files_get_files|].
  intros st. destruct (negb _); [apply files_ret|].
  apply files_bind; [apply files_populate_tree|]. intros _. apply files_ret.
Qed.

Lemma users_after_add (username y m d f t : string) (a : app) :
  users_db (files (snd (add_button_action username y m d f t a))) = users_db (files a).
Proof.
  unfold add_button_action, try_except, bind, lift.
  destruct (entry_date y m d) as [date|e1]; [|destruct e1; reflexivity].
  destruct (entry_start f) as [s|e2]; [|destruct e2; reflexivity].
  destruct (entry_end t) as [e|e3]; [|destruct e3; reflexivity].
  cbv [get_files put_files update_shift_entry_table tree_insert bind get_home lift
       put_home ret].
  cbn [home files fst snd hv_shift_db tv_shift_table].
  destruct (has_item _ _); reflexivity.
Qed.

Lemma users_after_delete (selection : list Z) (a : app) :
  users_db (files (snd (delete_selected_entry selection a))) = users_db (files a).
Proof.
  destruct selection as [|k rest];
    cbv [delete_selected_entry try_except bind lift tree_delete get_home
         put_home get_files put_files ret Pandas.drop PyStr.index nth_error];
    cbn [home files fst snd hv_shift_db tv_shift_table]; [reflexivity|].
  destruct (has_item (tv_shift_table (home a)) k);
    cbn [home files fst snd hv_shift_db tv_shift_table]; [|reflexivity].
  destruct (Pandas.has_label (hv_shift_db (home a)) k); reflexivity.
Qed.

(** X11.  Of the five callbacks only [create_user] ever changes the users file,
    and only [add_button_action] and [delete_selected_entry] ever change
    the shift file: logging in or out writes nothing. *)
Theorem files_changed_only_by :
  forall ev a,
    match ev with
    | Create _ _ _ => shift_db (files (handle ev a)) = shift_db (files a)
    | Login _ | Logout => files (handle ev a) = files a
    | Add _ _ _ _ _ _ | Delete _ => users_db (files (handle ev a)) = users_db (files a)
    end.
Proof.
  intros [name surname userid|userid| |username y m d f t|selection] a; cbn [handle].
  - unfold create_user, bind, get_files, put_files, ret.
    destruct (_ || _); [reflexivity|].
    destruct (check_if_userid_exists (files a) userid); reflexivity.
  - apply files_login_user.
  - reflexivity.
  - apply users_after_add.
  - apply users_after_delete.
Qed.

Lemma users_never_fewer_after (ev : event) (a : app) :
  (List.length (users_db (files a)) <= List.length (users_db (files (handle ev a))))%nat.
Proof.
  destruct ev as [name surname userid|userid| |username y m d f t|selection]; cbn [handle].
  - unfold create_user, bind, get_files, put_files, ret.
    destruct (_ || _); [reflexivity|].
    destruct (check_if_userid_exists (files a) userid); [reflexivity|].
    cbn [snd files].
    destruct (users_after_save (files a) name surname userid) as [E L].
    rewrite E, length_app, L. lia.
  - now rewrite files_login_user.
  - reflexivity.
  - now rewrite users_after_add.
  - now rewrite users_after_delete.
Qed.

(** X12.  Whatever the user does, the users file never gets shorter: no
    callback removes a registered user. *)
Theorem users_are_never_removed :
  forall evs a,
    (List.length (users_db (files a)) <=
     List.length (users_db (files (mainloop evs a))))%nat.
Proof.
  induction evs as [|ev evs IH]; intros a; [reflexivity|].
  cbn [mainloop fold_left]. fold (mainloop evs (handle ev a)).
  etransitivity; [apply (users_never_fewer_after ev)|apply IH].
Qed.

(** ** Deleting an item that has no row *)

(** X13.  When the first selected item is in the tree view but the frame of the
    home view has no row under that number, as for a shift added since the
    view was built, [delete_selected_entry] removes the item from the tree
    view, prints "Key Error", drops no row and still rewrites the shift
    file from the frame. *)
Theorem delete_of_an_item_without_row :
  forall k rest a,
    has_item (tv_shift_table (home a)) k = true ->
    Pandas.has_label (hv_shift_db (home a)) k = false ->
    delete_selected_entry (k :: rest) a =
    (Ok Key_Error_printed,
     mkapp (updated_shift_db (files a) (hv_shift_db (home a)))
           (mkHomeView (hv_shift_db (home a))
              (filter (fun p => negb (fst p =? k)) (tv_shift_table (home a))))).
Proof.
  intros k rest a Hitem Hrow.
  cbv [delete_selected_entry try_except bind lift tree_delete get_home
       put_home get_files put_files ret Pandas.drop PyStr.index nth_error].
  rewrite Hitem. cbn [home files fst snd hv_shift_db tv_shift_table].
  rewrite Hrow. reflexivity.
Qed.

(** ** User ids that are never found *)

Lemma existsb_none {A : Type} (f : A -> bool) (l : list A) :
  (forall x, In x l -> f x = false) -> existsb f l = false.
Proof.
  intros H. destruct (existsb f l) eqn:E; [|reflexivity].
  apply existsb_exists in E as (x & I & F). now rewrite (H x I) in F.
Qed.

Lemma existsb_none_inv {A : Type} (f : A -> bool) (l : list A) (x : A) :
  existsb f l = false -> In x l -> f x = false.
Proof.
  intros E I. destruct (f x) eqn:F; [|reflexivity].
  assert (T : existsb f l = true) by (apply existsb_exists; eauto).
  now rewrite T in E.
Qed.

Lemma filter_none {A : Type} (f : A -> bool) (l : list A) :
  (forall x, In x l -> f x = false) -> filter f l = [].
Proof.
  induction l as [|x l IH]; intros H; simpl; [reflexivity|].
  rewrite (H x (or_introl eq_refl)). apply IH. intros y I. apply H. now right.
Qed.

Lemma text_cell_differs (u s : string) :
  Pandas.is_na u = true -> Pandas.is_na s = false ->
  Pandas.eq_str u (Pandas.Str s) = false.
Proof.
  intros Hu Hs. cbn [Pandas.eq_str].
  destruct (String.eqb_spec u s) as [->|]; [congruence|reflexivity].
Qed.

Lemma or_nan_differs (F : string -> Pandas.cell) (u s : string) :
  (Pandas.is_na s = false -> Pandas.eq_str u (F s) = false) ->
  Pandas.eq_str u (Pandas.or_nan F s) = false.
Proof.
  intros H. unfold Pandas.or_nan. destruct (Pandas.is_na s); [reflexivity|auto].
Qed.

Lemma forallb_on_map {A B : Type} (f : A -> B) (g : B -> bool) (l : list A) :
  forallb g (map f l) = forallb (fun x => g (f x)) l.
Proof.
  induction l as [|x l IH]; simpl; [reflexivity|]. now rewrite IH.
Qed.

Lemma scan_column_overflow (read : string -> Pandas.reading) (words : list string) :
  Pandas.scan_column read words = Pandas.StopOverflow ->
  exists w, In w words /\ read w = Pandas.Overflow.
Proof.
  induction words as [|x words IH]; simpl; [discriminate|].
  destruct (read x) eqn:E; intros H; try discriminate;
    try (destruct (IH H) as (w & I & R); exists w; split; [now right|exact R]).
  exists x. split; [now left|exact E].
Qed.

Lemma no_overflow_scan (col : list string) :
  forallb (fun s => negb (Pandas.overflows s)) col = true ->
  Pandas.scan_column Pandas.to_int64 (filter (fun s => negb (Pandas.is_na s)) col)
  <> Pandas.StopOverflow.
Proof.
  intros H S. apply scan_column_overflow in S as (w & I & R).
  apply filter_In in I as [I _]. rewrite forallb_forall in H.
  specialize (H w I). unfold Pandas.overflows in H. now rewrite R in H.
Qed.

Lemma upcast_is_no_text (u s : string) : Pandas.eq_str u (Pandas.upcast s) = false.
Proof.
  unfold Pandas.upcast. destruct (Pandas.is_na s); [reflexivity|].
  destruct (Pandas.int_literal s) as [z|]; [|reflexivity].
  destruct (z <=? _); reflexivity.
Qed.

(** In a column without a number outside int64, no cell [read_csv] makes
    is a text equal to a missing-value word. *)
Lemma missing_word_is_no_cell (col : list string) (u : string) (c : Pandas.cell) :
  forallb (fun s => negb (Pandas.overflows s)) col = true ->
  Pandas.is_na u = true -> In c (Pandas.infer_column finite_double col) ->
  Pandas.eq_str u c = false.
Proof.
  intros Hcol Hu. pose proof (no_overflow_scan col Hcol) as S. clear Hcol.
  unfold Pandas.infer_column, Pandas.other_dtypes.
  assert (T : forall s, Pandas.is_na s = false -> Pandas.eq_str u (Pandas.as_int s) = false).
  { intros s Hs. unfold Pandas.as_int.
    destruct (Pandas.int_literal s); [reflexivity|now apply text_cell_differs]. }
  assert (B : forall s, Pandas.is_na s = false -> Pandas.eq_str u (Pandas.as_bool s) = false).
  { intros s Hs. unfold Pandas.as_bool.
    destruct (Pandas.bool_word s); [reflexivity|now apply text_cell_differs]. }
  assert (N : forall F, (forall s, Pandas.is_na s = false -> Pandas.eq_str u (F s) = false) ->
                        In c (map (Pandas.or_nan F) col) -> Pandas.eq_str u c = false).
  { intros F HF I. apply in_map_iff in I as (s & <- & _). apply or_nan_differs, HF. }
  destruct (Pandas.scan_column Pandas.to_int64 _); [|congruence|].
  - destruct (existsb Pandas.is_na col) eqn:M.
    + intros I. apply in_map_iff in I as (s & <- & _). apply upcast_is_no_text.
    + intros I. apply in_map_iff in I as (s & <- & Is).
      apply T. exact (existsb_none_inv _ _ s M Is).
  - destruct (forallb _ _); [apply N; reflexivity|].
    destruct (forallb _ _); [now apply N|].
    apply N. intros s Hs. now apply text_cell_differs.
Qed.

(** X14.  While no user id on file is a number outside the int64 range, a
    user id that is one of the missing-value words of [read_csv] ("NA",
    "null", "nan", ...) is never found: [check_if_userid_exists] answers
    [False], [get_user_specific_entry] returns no shift and [login_user]
    shows the error. *)
Theorem missing_word_id_is_never_found :
  forall st a userid,
    Pandas.is_na userid = true ->
    ids_fit_int64 st = true -> ids_fit_int64 (files a) = true ->
    check_if_userid_exists st userid = false /\
    get_user_specific_entry st userid = [] /\
    login_user userid a = (Ok (Invalid_User_ID, LoginPage), a).
Proof.
  intros st a userid Hu Hst Ha.
  assert (C : forall st', ids_fit_int64 st' = true ->
                          check_if_userid_exists st' userid = false).
  { intros st' F. unfold ids_fit_int64 in F. apply andb_true_iff in F as [F _].
    unfold check_if_userid_exists. rewrite user_ids_of_read_users.
    unfold Pandas.contains. rewrite existsb_none; [reflexivity|].
    intros c I. apply (missing_word_is_no_cell (map User_id (users_db st')));
      [|assumption|assumption].
    now rewrite forallb_on_map. }
  split; [now apply C|]. split.
  - unfold get_user_specific_entry. apply filter_none. intros row I.
    unfold ids_fit_int64 in Hst. apply andb_true_iff in Hst as [_ F].
    apply (missing_word_is_no_cell (map line_user_id (shift_db st)));
      [now rewrite forallb_on_map|assumption|].
    rewrite <- shift_ids_of_read_shifts. unfold Pandas.rows_of. rewrite map_map.
    apply in_map_iff. now exists row.
  - unfold login_user, bind, get_files, ret. now rewrite (C _ Ha).
Qed.

(** X15.  When every user id on file is an integer that fits 64 bits (missing
    words apart), [read_csv] reads the column as numbers and
    [check_if_userid_exists] finds no id at all: nobody can log in. *)
Theorem numeric_ids_are_never_found :
  forall st userid,
    numeric_ids (users_db st) = true -> check_if_userid_exists st userid = false.
Proof.
  intros st userid H. unfold check_if_userid_exists. rewrite user_ids_of_read_users.
  set (col := map User_id (users_db st)).
  assert (W : forall s, In s (filter (fun w => negb (Pandas.is_na w)) col) ->
                        Pandas.int_in Pandas.in_int64 s = true).
  { intros s I. apply filter_In in I as [I Hs]. apply negb_true_iff in Hs.
    unfold col in I. apply in_map_iff in I as (l & <- & Il).
    unfold numeric_ids in H. rewrite forallb_forall in H. specialize (H l Il).
    now rewrite Hs in H. }
  assert (L : forall s, Pandas.int_in Pandas.in_int64 s = true ->
                        exists z, Pandas.int_literal s = Some z /\
                                  Pandas.to_int64 s = Pandas.Number z).
  { intros s. unfold Pandas.int_in. destruct (Pandas.int_literal s) as [z|] eqn:E;
      [|discriminate].
    intros R. exists z. split; [reflexivity|now apply to_int64_of_literal]. }
  unfold Pandas.infer_column. fold col.
  rewrite scan_column_all.
  2:{ intros s I. destruct (L s (W s I)) as (z & _ & ->). split; discriminate. }
  unfold Pandas.contains.
  destruct (existsb Pandas.is_na col) eqn:M; rewrite existsb_none; try reflexivity.
  - intros c I. apply in_map_iff in I as (s & <- & _). apply upcast_is_no_text.
  - intros c I. apply in_map_iff in I as (s & <- & Is).
    assert (Hs : Pandas.is_na s = false) by exact (existsb_none_inv _ _ s M Is).
    assert (Iw : In s (filter (fun w => negb (Pandas.is_na w)) col)).
    { apply filter_In. split; [assumption|now rewrite Hs]. }
    unfold Pandas.as_int. destruct (L s (W s Iw)) as (z & -> & _). reflexivity.
Qed.

(** ** Shift files whose user ids are all plain text *)

Lemma infer_all_plain (col : list string) :
  forallb (Pandas.plain_text finite_double) col = true ->
  Pandas.infer_column finite_double col = map Pandas.Str col.
Proof.
  intros H. destruct col as [|s col]; [reflexivity|].
  pose proof H as H'. cbn [forallb] in H'. apply andb_true_iff in H' as [Hs _].
  destruct (infer_column_plain (s :: col) s (or_introl eq_refl) Hs) as [-> | ->];
    [|reflexivity].
  apply map_ext_in. intros w I. apply plain_cell.
  rewrite forallb_forall in H. auto.
Qed.

Lemma read_plain_shifts (f : list shift_line) :
  plain_shift_file f = true ->
  read_shifts f = Pandas.range_index (map text_row f).
Proof.
  intros H. unfold read_shifts. f_equal.
  rewrite infer_all_plain
    by (unfold plain_shift_file in H; now rewrite forallb_on_map).
  clear H. induction f as [|l f IH]; [reflexivity|].
  cbn [map combine fst snd]. now rewrite IH.
Qed.

Lemma line_of_text_row (l : shift_line) :
  mkshift_line (Pandas.render float_repr (sh_user_id (text_row l)))
               (sh_date (text_row l)) (sh_start_time (text_row l))
               (sh_end_time (text_row l)) (sh_no_of_hours (text_row l)) = l.
Proof. now destruct l. Qed.

Lemma write_text_rows (f : list shift_line) :
  map (fun r => mkshift_line (Pandas.render float_repr (sh_user_id r)) (sh_date r)
                             (sh_start_time r) (sh_end_time r) (sh_no_of_hours r))
      (map text_row f) = f.
Proof.
  rewrite map_map. induction f as [|l f IH]; [reflexivity|].
  cbn [map]. now rewrite line_of_text_row, IH.
Qed.

Lemma write_read_plain (f : list shift_line) :
  plain_shift_file f = true -> write_shifts (read_shifts f) = f.
Proof.
  intros H. rewrite (read_plain_shifts f H). unfold write_shifts.
  rewrite rows_of_range_index. apply write_text_rows.
Qed.

(** X16.  On a shift file whose user ids are all plain text, reading the file
    and writing it back changes nothing, and [add_entry_to_shift_db] keeps
    every line and puts the new one after them, whatever the new user id
    is. *)
Theorem plain_shift_file_is_kept :
  forall st userid date s e hours,
    plain_shift_file (shift_db st) = true ->
    updated_shift_db st (read_shifts (shift_db st)) = st /\
    shift_db (add_entry_to_shift_db st userid date s e hours) =
    (shift_db st ++ [mkshift_line userid date s e hours])%list.
Proof.
  intros st userid date s e hours H. split.
  - unfold updated_shift_db. rewrite (write_read_plain _ H). now destruct st.
  - now rewrite add_entry_lines, (write_read_plain _ H).
Qed.

Lemma rows_of_filter_on_rows {R : Type} (g : R -> bool) (rows : list R) :
  forall labels : list Z,
    List.length labels = List.length rows ->
    map snd (filter (fun p => g (snd p)) (combine labels rows)) = filter g rows.
Proof.
  induction rows as [|r rows IH]; intros [|k labels] H; simpl in *;
    try discriminate; [reflexivity|].
  injection H as H. destruct (g r); simpl; rewrite (IH labels H); reflexivity.
Qed.

Lemma filter_of_map {A B : Type} (f : A -> B) (g : B -> bool) (l : list A) :
  filter g (map f l) = map f (filter (fun x => g (f x)) l).
Proof.
  induction l as [|x l IH]; simpl; [reflexivity|].
  destruct (g (f x)); simpl; now rewrite IH.
Qed.

(** X17.  On a shift file whose user ids are all plain text,
    [get_user_specific_entry] returns the lines whose user id is the one
    asked for, all of them and no other, in the order of the file. *)
Theorem shifts_listed_from_a_plain_file :
  forall st userid,
    plain_shift_file (shift_db st) = true ->
    map snd (get_user_specific_entry st userid) =
    map text_row (filter (fun l => String.eqb userid (line_user_id l)) (shift_db st)).
Proof.
  intros st userid H. unfold get_user_specific_entry.
  rewrite (read_plain_shifts _ H). unfold Pandas.range_index.
  rewrite (rows_of_filter_on_rows (fun r => Pandas.eq_str userid (sh_user_id r)))
    by now rewrite !length_map, length_seq.
  rewrite filter_of_map. reflexivity.
Qed.

(** ** Deleting when the file holds the shifts of one user only *)

Lemma label_in_range {R : Type} (rows : list R) :
  forall o j, (o <= j < o + List.length rows)%nat ->
    existsb (fun p => fst p =? Z.of_nat j)
            (combine (map Z.of_nat (seq o (List.length rows))) rows) = true.
Proof.
  induction rows as [|r rows IH]; intros o j H; cbn [List.length] in *; [lia|].
  cbn [seq map combine existsb fst].
  destruct (Nat.eq_dec o j) as [->|N].
  - now rewrite Z.eqb_refl.
  - rewrite (IH (S o) j) by lia. apply orb_true_r.
Qed.

Lemma item_in_range (tbl : list shift_tuple) :
  forall o j, (o <= j < o + List.length tbl)%nat ->
    existsb (fun p : Z * tree_values => fst p =? Z.of_nat j)
            (map (fun p => (Z.of_nat (fst p), values_of (snd p)))
                 (combine (seq o (List.length tbl)) tbl)) = true.
Proof.
  induction tbl as [|r tbl IH]; intros o j H; cbn [List.length] in *; [lia|].
  cbn [seq map combine existsb fst].
  destruct (Nat.eq_dec o j) as [->|N].
  - now rewrite Z.eqb_refl.
  - rewrite (IH (S o) j) by lia. apply orb_true_r.
Qed.

Lemma later_labels_stay {R : Type} (rows : list R) :
  forall o t, (t < o)%nat ->
    filter (fun p : Z * R => negb (fst p =? Z.of_nat t))
           (combine (map Z.of_nat (seq o (List.length rows))) rows) =
    combine (map Z.of_nat (seq o (List.length rows))) rows.
Proof.
  induction rows as [|r rows IH]; intros o t H; [reflexivity|].
  cbn [List.length seq map combine filter fst].
  replace (Z.of_nat o =? Z.of_nat t) with false by (symmetry; apply Z.eqb_neq; lia).
  cbn [negb]. now rewrite IH by lia.
Qed.

(** Dropping the label [o + k] from rows labelled from [o] on leaves the
    rows but the one at position [k]. *)
Lemma rows_without_label {R : Type} (rows : list R) :
  forall o k,
    map snd (filter (fun p : Z * R => negb (fst p =? Z.of_nat (o + k)))
                    (combine (map Z.of_nat (seq o (List.length rows))) rows)) =
    without_line k rows.
Proof.
  unfold without_line.
  induction rows as [|r rows IH]; intros o k.
  - now rewrite firstn_nil, skipn_nil.
  - cbn [List.length seq map combine filter fst]. destruct k as [|k].
    + rewrite Nat.add_0_r, Z.eqb_refl. cbn [negb firstn skipn List.app].
      replace (Z.of_nat o) with (Z.of_nat (o + 0)) by (f_equal; lia).
      rewrite Nat.add_0_r.
      rewrite later_labels_stay by lia.
      apply map_snd_combine. now rewrite length_map, length_seq.
    + replace (Z.of_nat o =? Z.of_nat (o + S k)) with false
        by (symmetry; apply Z.eqb_neq; lia).
      cbn [negb map snd firstn skipn List.app]. f_equal.
      replace (o + S k)%nat with (S o + k)%nat by lia. apply IH.
Qed.

(** X18.  In a session started on a shift file that holds the shifts of one
    user only, under a plain-text id that is registered, that user logs in,
    selects the item of any line and deletes it: the callback returns
    without a message, the shift file loses exactly that line and keeps the
    others in order, and the users file is as it was. *)
Theorem delete_in_a_one_user_file :
  forall st0 userid k,
    Pandas.plain_text finite_double userid = true ->
    forallb (fun l => String.eqb userid (line_user_id l)) (shift_db st0) = true ->
    check_if_userid_exists st0 userid = true ->
    (k < List.length (shift_db st0))%nat ->
    let r := delete_selected_entry [Z.of_nat k] (mainloop [Login userid] (start_app st0)) in
    fst r = Ok Nothing /\
    shift_db (files (snd r)) = without_line k (shift_db st0) /\
    users_db (files (snd r)) = users_db st0.
Proof.
  intros st0 userid k Hplain Hone Hreg Hk.
  set (f := shift_db st0) in *.
  assert (P : plain_shift_file f = true).
  { unfold plain_shift_file. apply forallb_forall. intros l I.
    rewrite forallb_forall in Hone. specialize (Hone l I).
    apply String.eqb_eq in Hone. now rewrite <- Hone. }
  assert (E : get_user_specific_entry st0 userid = read_shifts f).
  { unfold get_user_specific_entry. fold f. apply forallb_filter_id.
    rewrite (read_plain_shifts f P). unfold Pandas.range_index.
    apply forallb_forall. intros [lbl row] I. apply in_combine_r in I.
    apply in_map_iff in I as (l & <- & Il). cbn [snd text_row sh_user_id Pandas.eq_str].
    rewrite forallb_forall in Hone. exact (Hone l Il). }
  assert (A : mainloop [Login userid] (start_app st0) =
              mkapp st0 (mkHomeView (read_shifts f) (items_of (read_shifts f)))).
  { cbn [mainloop fold_left handle].
    unfold login_user, bind at 1. unfold get_files at 1.
    cbn [start_app files fst snd]. rewrite Hreg. cbn [negb]. unfold bind.
    rewrite populate_empty_tree by reflexivity.
    cbn [start_app HomeView_init files home hv_shift_db snd]. now rewrite E. }
  rewrite A. clear A E.
  assert (Hitem : has_item (items_of (read_shifts f)) (Z.of_nat k) = true).
  { unfold has_item, items_of. apply item_in_range. rewrite read_shifts_length. lia. }
  assert (Hrow : Pandas.has_label (read_shifts f) (Z.of_nat k) = true).
  { rewrite (read_plain_shifts f P). unfold Pandas.has_label, Pandas.range_index.
    apply label_in_range. rewrite length_map. lia. }
  cbv zeta.
  cbv [delete_selected_entry try_except bind lift tree_delete get_home
       put_home get_files put_files ret Pandas.drop PyStr.index nth_error].
  cbn [home files fst snd hv_shift_db tv_shift_table].
  rewrite Hitem. cbn [home files fst snd hv_shift_db tv_shift_table].
  rewrite Hrow. cbn [home files fst snd hv_shift_db tv_shift_table updated_shift_db
                     shift_db users_db].
  repeat split.
  unfold write_shifts, Pandas.rows_of.
  rewrite (read_plain_shifts f P). unfold Pandas.range_index.
  pose proof (rows_without_label (map text_row f) 0 k) as W.
  rewrite Nat.add_0_l in W. rewrite W.
  unfold without_line. rewrite firstn_map, skipn_map, map_app, !write_text_rows.
  reflexivity.
Qed.

(** ** The pages of the window and the time boxes *)

Lemma has_page_hidden (fs : frames) (page_name : string) :
  has_page (grid_remove_all fs) page_name = has_page fs page_name.
Proof.
  unfold has_page, grid_remove_all. induction fs as [|p fs IH]; [reflexivity|].
  cbn [map existsb fst]. now rewrite IH.
Qed.

Lemma shown_after_grid (fs : frames) (page_name : string) :
  shown (grid page_name (grid_remove_all fs)) =
  filter (fun n => String.eqb n page_name) (map fst fs).
Proof.
  unfold shown, grid, grid_remove_all. induction fs as [|p fs IH]; [reflexivity|].
  cbn [map filter fst snd].
  destruct (String.eqb (fst p) page_name); cbn [snd map fst filter]; now rewrite IH.
Qed.

Lemma hidden_shows_nothing (fs : frames) : shown (grid_remove_all fs) = [].
Proof.
  unfold shown, grid_remove_all. induction fs as [|p fs IH]; [reflexivity|].
  cbn [map filter snd]. exact IH.
Qed.

Lemma one_of_distinct (names : list string) (n : string) :
  NoDup names -> In n names -> filter (fun x => String.eqb x n) names = [n].
Proof.
  induction names as [|x names IH]; intros D I; [destruct I|].
  inversion D as [|? ? Hx Hd]; subst. cbn [filter].
  destruct (String.eqb_spec x n) as [->|N].
  - f_equal. apply filter_none. intros y Iy.
    destruct (String.eqb_spec y n) as [->|]; [contradiction|reflexivity].
  - destruct I as [->|I]; [contradiction|]. now apply IH.
Qed.

(** X19.  [show_frame] with the name of a page puts that page on the grid and no
    other; with an unknown name it raises a [KeyError] after every page has
    left the grid, so that nothing is shown. *)
Theorem show_frame_one_page :
  forall page_name fs,
    NoDup (map fst fs) ->
    (In page_name (map fst fs) ->
     fst (show_frame page_name fs) = Ok tt /\
     shown (snd (show_frame page_name fs)) = [page_name]) /\
    (~ In page_name (map fst fs) ->
     fst (show_frame page_name fs) = Raise KeyError /\
     shown (snd (show_frame page_name fs)) = []).
Proof.
  intros page_name fs D. unfold show_frame. rewrite has_page_hidden.
  assert (H : has_page fs page_name = true <-> In page_name (map fst fs)).
  { unfold has_page. rewrite existsb_exists. split.
    - intros (p & I & E). apply String.eqb_eq in E. subst. now apply in_map.
    - intros I. apply in_map_iff in I as (p & <- & I). exists p.
      split; [assumption|apply String.eqb_refl]. }
  split; intros I.
  - rewrite (proj2 H I). cbn [fst snd]. split; [reflexivity|].
    rewrite shown_after_grid. now apply one_of_distinct.
  - destruct (has_page fs page_name) eqn:E; [exfalso; apply I, H; reflexivity|].
    cbn [fst snd]. split; [reflexivity|apply hidden_shows_nothing].
Qed.

(** X20.  Leaving a time box brings back what clicking on it took away: a click
    followed by a focus-out leaves the two boxes as a focus-out alone
    does.  After a click no box shows the placeholder, after a focus-out
    no box is empty. *)
Theorem placeholders_come_back :
  forall b,
    on_focus_out (on_entry_click b) = on_focus_out b /\
    ent_from (on_entry_click b) <> placeholder /\
    ent_to (on_entry_click b) <> placeholder /\
    ent_from (on_focus_out b) <> "" /\
    ent_to (on_focus_out b) <> "".
Proof.
  intros [f t]. unfold on_entry_click, on_focus_out. cbn [ent_from ent_to].
  assert (I : insert_at_start "" placeholder = placeholder) by reflexivity.
  assert (P : String.eqb placeholder "" = false) by reflexivity.
  assert (Q : String.eqb "" "" = true) by reflexivity.
  assert (R : String.eqb "" placeholder = false) by reflexivity.
  destruct (String.eqb_spec f placeholder) as [->|Fp]; cbn [ent_from ent_to];
    destruct (String.eqb_spec t placeholder) as [->|Tp]; cbn [ent_from ent_to];
    rewrite ?P, ?Q, ?R; cbn [ent_from ent_to]; rewrite ?I, ?P, ?Q, ?R;
    cbn [ent_from ent_to];
    try (destruct (String.eqb_spec f "") as [->|F0]; cbn [ent_from ent_to]);
    try (destruct (String.eqb_spec t "") as [->|T0]; cbn [ent_from ent_to]);
    rewrite ?I, ?P, ?Q, ?R; cbn [ent_from ent_to]; rewrite ?I, ?P, ?Q, ?R;
    cbn [ent_from ent_to];
    repeat split; try discriminate; try assumption; try congruence.
Qed.

End Store.

(** ** Instances *)

(** C2 as first stated fails: on 2024-03-01, from 17:30 to 09:00, the
    hours are 15.5, not a negative number. *)
Lemma C2_counterexample :
  ~ (forall y m d sh sm eh em date s e,
        Datetime.new_date y m d = Ok date ->
        Datetime.new_time sh sm = Ok s ->
        Datetime.new_time eh em = Ok e ->
        Datetime.minutes_of_day e < Datetime.minutes_of_day s ->
        no_of_hours date s e < 0).
Proof.
  intros H.
  specialize (H 2024 3 1 17 30 9 0 march_1st (clock 17 30) (clock 9 0)
                eq_refl eq_refl eq_refl eq_refl).
  vm_compute in H. discriminate H.
Qed.

Lemma C1_witness :
  Datetime.minutes_of_day (clock 9 0) < Datetime.minutes_of_day (clock 9 40) /\
  0 < no_of_hours march_1st (clock 9 0) (clock 9 40) /\
  - 30 < 100 * (Datetime.minutes_of_day (clock 9 40) - Datetime.minutes_of_day (clock 9 0))
         - 60 * no_of_hours march_1st (clock 9 0) (clock 9 40) < 30.
Proof.
  split; [reflexivity|].
  apply (proj1 C1_duration_same_day 2024 3 1 9 0 9 40); reflexivity.
Defined.

Lemma C2_witness :
  Datetime.minutes_of_day (clock 9 0) < Datetime.minutes_of_day (clock 17 30) /\
  no_of_hours march_1st (clock 17 30) (clock 9 0) = 1550 /\
  0 < no_of_hours march_1st (clock 17 30) (clock 9 0) < 2400.
Proof.
  split; [reflexivity|].
  apply (C2_duration_wraps 2024 3 1 17 30 9 0); reflexivity.
Defined.

Lemma C7_witness :
  entry_end "17.30" = Raise IndexError /\
  shift_db (files (snd (add_button_action (fun _ => true) (fun s => s) "ann" "2024" "3" "1" "09:00" "17.30"
                                          (start_app (fun _ => true) two_users_store)))) =
  shift_db two_users_store.
Proof.
  split; [reflexivity|].
  apply (C7_no_write_on_validation_failure (fun _ => true) (fun s => s)).
  right. right. exists IndexError. reflexivity.
Defined.

Lemma C9_witness :
  let a := mainloop (fun _ => true) (fun s => s)
             [Login "bob"; Add "bob" "2024" "3" "1" "09:00" "17:30"]
             (start_app (fun _ => true) two_users_store) in
  incl [0] (map fst (tv_shift_table (home a))) /\
  List.length (shift_db (files a)) = 3%nat /\
  shift_db (files (snd (delete_selected_entry (fun s => s) [0%Z] a))) =
  [mkshift_line "bob" march_2nd (clock 10 0) (clock 12 0) 200].
Proof.
  cbv zeta.
  assert (I : incl [0] (map fst (tv_shift_table
                (home (mainloop (fun _ => true) (fun s => s)
                         [Login "bob"; Add "bob" "2024" "3" "1" "09:00" "17:30"]
                         (start_app (fun _ => true) two_users_store)))))).
  { intros k [<-|[]]. left. reflexivity. }
  split; [exact I|]. split; [reflexivity|].
  destruct (C9_delete_rewrites_the_snapshot (fun _ => true) (fun s => s) two_users_store
              [Login "bob"; Add "bob" "2024" "3" "1" "09:00" "17:30"] [0] I)
    as (_ & _ & W & _).
  refine (eq_trans W _). reflexivity.
Defined.

Lemma C10_witness :
  PyStr.parse_int "7" = Some 7 /\ PyStr.parse_int "05" = Some 5 /\
  entry_start "7:05" = Ok (clock 7 5) /\ entry_end "7:05" = Ok (clock 7 5).
Proof.
  split; [reflexivity|]. split; [reflexivity|].
  apply (proj1 C10_time_fields_need_not_be_two_digits "7" "05" 7 5);
    first [reflexivity | lia].
Defined.

Lemma hours_between_valid_times_witness :
  0 <= no_of_hours march_1st (clock 22 0) (clock 6 15) < 2400.
Proof.
  apply (hours_between_valid_times march_1st march_2nd 22 0 6 15); reflexivity.
Defined.

Lemma digits_filter_gives_an_int_witness :
  is_ascii "2024" = true /\ only_digits_allowed "2024" "1" = true /\
  exists z, PyStr.int "2024" = Ok z /\ 0 <= z.
Proof.
  split; [reflexivity|]. split; [reflexivity|].
  apply (digits_filter_gives_an_int "2024"); first [reflexivity | simpl; lia].
Defined.

Lemma end_time_without_colon_escapes_witness :
  PyStr.has_char PyStr.colon "1730" = false /\
  add_button_action (fun _ => true) (fun s => s) "ann" "2024" "3" "1" "09:00" "1730" (start_app (fun _ => true) ann_store) =
  (Raise IndexError, start_app (fun _ => true) ann_store).
Proof.
  split; [reflexivity|].
  apply (end_time_without_colon_escapes (fun _ => true) (fun s => s) "ann" "2024" "3" "1" "09:00" "1730"
           (start_app (fun _ => true) ann_store) march_1st (clock 9 0)); reflexivity.
Defined.

Lemma add_button_action_appends_witness :
  entry_date "2024" "3" "1" = Ok march_1st /\
  List.length
    (shift_db (add_entry_to_shift_db (fun _ => true) (fun s => s) (files (start_app (fun _ => true) ann_store)) "ann"
                 march_1st (clock 9 0) (clock 17 30)
                 (no_of_hours march_1st (clock 9 0) (clock 17 30)))) = 4%nat.
Proof.
  split; [reflexivity|].
  apply (add_button_action_appends (fun _ => true) (fun s => s) "ann" "2024" "3" "1" "09:00" "17:30"
           (start_app (fun _ => true) ann_store) march_1st (clock 9 0) (clock 17 30));
    reflexivity.
Defined.

Lemma add_button_action_item_id_taken_witness :
  let a := mainloop (fun _ => true) (fun s => s)
             [Login "ann"; Add "ann" "2024" "3" "1" "09:00" "17:30"; Delete [0]]
             (start_app (fun _ => true) ann_store) in
  map fst (tv_shift_table (home a)) = [1; 2; 4] /\
  fst (add_button_action (fun _ => true) (fun s => s) "ann" "2024" "3" "2" "08:00" "09:00" a) = Raise TclError.
Proof.
  cbv zeta. split; [reflexivity|].
  rewrite (add_button_action_item_id_taken (fun _ => true) (fun s => s) "ann" "2024" "3" "2" "08:00" "09:00" _
             march_2nd (clock 8 0) (clock 9 0)); reflexivity.
Defined.

Lemma create_user_scope_witness :
  create_user (fun _ => true) (fun s => s) "" "Lee" "ann" (start_app (fun _ => true) ann_store) =
  (Ok Fill_in_all_the_boxes, start_app (fun _ => true) ann_store).
Proof.
  apply (create_user_scope (fun _ => true) (fun s => s) "" "Lee" "ann" (start_app (fun _ => true) ann_store)).
  reflexivity.
Defined.

Lemma create_user_registers_witness :
  check_if_userid_exists (fun _ => true) (files (start_app (fun _ => true) ann_store)) "bob" = false /\
  fst (create_user (fun _ => true) (fun s => s) "Bob" "Ray" "bob" (start_app (fun _ => true) ann_store)) = Ok Account_created.
Proof.
  split; [reflexivity|].
  apply (create_user_registers (fun _ => true) (fun s => s) "Bob" "Ray" "bob" (start_app (fun _ => true) ann_store));
    first [discriminate | reflexivity].
Defined.

Lemma login_user_outcomes_witness :
  check_if_userid_exists (fun _ => true) (files (start_app (fun _ => true) ann_store)) "bob" = false /\
  login_user (fun _ => true) "bob" (start_app (fun _ => true) ann_store) = (Ok (Invalid_User_ID, LoginPage), start_app (fun _ => true) ann_store).
Proof.
  split; [reflexivity|].
  apply (login_user_outcomes (fun _ => true) "bob" (start_app (fun _ => true) ann_store)). reflexivity.
Defined.

Lemma logout_then_login_refreshes_witness :
  check_if_userid_exists (fun _ => true) (files (start_app (fun _ => true) ann_store)) "ann" = true /\
  fst (login_user (fun _ => true) "ann" (snd (log_out_user (start_app (fun _ => true) ann_store)))) = Ok (Nothing, HomePage).
Proof.
  split; [reflexivity|].
  rewrite (logout_then_login_refreshes (fun _ => true) "ann" (start_app (fun _ => true) ann_store)); reflexivity.
Defined.

Lemma delete_of_an_item_without_row_witness :
  let a := mainloop (fun _ => true) (fun s => s) [Add "ann" "2024" "3" "1" "09:00" "17:30"]
                    (start_app (fun _ => true) empty_store) in
  has_item (tv_shift_table (home a)) 1 = true /\
  Pandas.has_label (hv_shift_db (home a)) 1 = false /\
  fst (delete_selected_entry (fun s => s) [1] a) = Ok Key_Error_printed.
Proof.
  cbv zeta. split; [reflexivity|]. split; [reflexivity|].
  rewrite (delete_of_an_item_without_row (fun s => s) 1 []); reflexivity.
Defined.

Lemma missing_word_id_is_never_found_witness :
  Pandas.is_na "NA" = true /\
  ids_fit_int64 (save_to_userList (fun _ => true) (fun s => s) ann_store "Nat" "Ash" "NA") = true /\
  check_if_userid_exists (fun _ => true)
    (save_to_userList (fun _ => true) (fun s => s) ann_store "Nat" "Ash" "NA") "NA" = false.
Proof.
  split; [reflexivity|]. split; [reflexivity|].
  apply (missing_word_id_is_never_found (fun _ => true)
           (save_to_userList (fun _ => true) (fun s => s) ann_store "Nat" "Ash" "NA")
           (start_app (fun _ => true) ann_store) "NA");
    reflexivity.
Defined.

Lemma numeric_ids_are_never_found_witness :
  numeric_ids [mkuser_line "Ann" "Lee" "123"; mkuser_line "Bob" "Ray" "456"] = true /\
  check_if_userid_exists (fun _ => true)
    (mkstore [mkuser_line "Ann" "Lee" "123"; mkuser_line "Bob" "Ray" "456"] []) "456" = false.
Proof.
  split; [reflexivity|].
  apply (numeric_ids_are_never_found (fun _ => true)
           (mkstore [mkuser_line "Ann" "Lee" "123"; mkuser_line "Bob" "Ray" "456"] []) "456").
  reflexivity.
Defined.

Lemma plain_shift_file_is_kept_witness :
  plain_shift_file (fun _ => true) (shift_db two_users_store) = true /\
  updated_shift_db (fun s => s) two_users_store (read_shifts (fun _ => true) (shift_db two_users_store)) =
  two_users_store.
Proof.
  split; [reflexivity|].
  apply (plain_shift_file_is_kept (fun _ => true) (fun s => s) two_users_store "bob" march_1st
           (clock 9 0) (clock 10 0) 100).
  reflexivity.
Defined.

Lemma shifts_listed_from_a_plain_file_witness :
  plain_shift_file (fun _ => true) (shift_db two_users_store) = true /\
  map snd (get_user_specific_entry (fun _ => true) two_users_store "bob") =
  [text_row (mkshift_line "bob" march_2nd (clock 10 0) (clock 12 0) 200)].
Proof.
  split; [reflexivity|].
  rewrite (shifts_listed_from_a_plain_file (fun _ => true) two_users_store "bob"); reflexivity.
Defined.

Lemma delete_in_a_one_user_file_witness :
  check_if_userid_exists (fun _ => true) ann_store "ann" = true /\
  shift_db (files (snd (delete_selected_entry (fun s => s) [1]
                          (mainloop (fun _ => true) (fun s => s) [Login "ann"] (start_app (fun _ => true) ann_store))))) =
  [mkshift_line "ann" march_1st (clock 9 0) (clock 17 0) 800;
   mkshift_line "ann" march_2nd (clock 13 0) (clock 18 30) 550].
Proof.
  split; [reflexivity|].
  apply (delete_in_a_one_user_file (fun _ => true) (fun s => s) ann_store "ann" 1%nat);
    first [reflexivity | simpl; lia].
Defined.

Lemma show_frame_one_page_witness :
  NoDup (map fst MainApp_frames) /\
  shown (snd (show_frame "LoginView" MainApp_frames)) = ["LoginView"].
Proof.
  assert (D : NoDup (map fst MainApp_frames)).
  { repeat constructor; simpl; intuition discriminate. }
  split; [exact D|].
  apply (show_frame_one_page "LoginView" MainApp_frames D). now left.
Defined.
